(** * OHAP Python SDK: validator and client workflow operations

    A shallow embedding of [python/ohap/validator.py] and of the workflow
    operations of [python/ohap/client.py] ([OHAPClient]), together with the
    properties of the protocol description that concern them.

    Python dictionaries are finite maps from strings to values ([gmap]);
    the dictionary a caller hands to a workflow operation is an object of a
    store and is passed by reference, as in Python.  The clock, the random
    generator and the HTTP server are oracles of an environment. *)

From stdpp Require Import gmap strings list fin_maps pretty.
From Stdlib Require Import ZArith Ascii String.

Local Open Scope string_scope.
Local Open Scope Z_scope.

(** ** Python values *)

Module Py.

(** The JSON-like values the SDK manipulates ([Dict[str, Any]]). *)
#[warnings="-register-all"]
Inductive value : Type :=
  | VNone
  | VBool (b : bool)
  | VInt (n : Z)
  | VStr (s : string)
  | VList (xs : list value)
  | VDict (d : gmap string value).

(** Truth value of an object: [None], [False], [0], the empty string, the
    empty list and the empty dict are false; everything else is true. *)
Definition truthy (v : value) : bool :=
  match v with
  | VNone => false
  | VBool b => b
  | VInt n => negb (n =? 0)
  | VStr s => negb (String.length s =? 0)%nat
  | VList xs => negb (List.length xs =? 0)%nat
  | VDict d => negb (size d =? 0)%nat
  end.

(** [d.get(k)]: the value under [k], [None] when the key is missing. *)
Definition get (d : gmap string value) (k : string) : value :=
  default VNone (d !! k).

(** [d.get(k, dflt)]. *)
Definition get_default (d : gmap string value) (k : string) (dflt : value) : value :=
  default dflt (d !! k).

(** [k in d]. *)
Definition contains (d : gmap string value) (k : string) : bool :=
  bool_decide (is_Some (d !! k)).

(** [isinstance(v, str)]. *)
Definition is_str (v : value) : bool :=
  match v with VStr _ => true | _ => false end.

(** The exceptions that leave the SDK: the ones it raises itself, what
    httpx raises when a request gets no answer ([TransportError]), and
    what [response.json()] raises on a body that is not JSON
    ([JSONDecodeError], a subclass of [ValueError]). *)
Inductive exc : Type :=
  | ValueError (msg : string)
  | ImportError (msg : string)
  | Exception (msg : string)
  | TransportError (msg : string)
  | JSONDecodeError (msg : string).

(** [isinstance(e, ValueError)]. *)
Definition is_value_error (e : exc) : bool :=
  match e with
  | ValueError _ | JSONDecodeError _ => true
  | _ => false
  end.

End Py.

Import Py.

(** ** validator.py *)

Module Validator.

(** A validator returns nothing ([None]) or raises: [inl e] is the raised
    exception, [inr tt] the normal return. *)
Definition outcome : Type := exc + unit.

Definition passed : outcome := inr tt.
Definition raise (e : exc) : outcome := inl e.

(** [isinstance(d.get("id"), str) and d.get("id")] negated, as the four
    validators write it for the entity id. *)
Definition bad_id (d : gmap string value) : bool :=
  negb (is_str (get d "id")) || negb (truthy (get d "id")).

(** [not isinstance(a, dict) or not a.get("id")] for an actor [a]. *)
Definition bad_actor (a : value) : bool :=
  match a with
  | VDict ad => negb (truthy (get ad "id"))
  | _ => true
  end.

(** [not isinstance(v, str) or len(v) < n]. *)
Definition bad_text (v : value) (n : nat) : bool :=
  match v with
  | VStr s => (String.length s <? n)%nat
  | _ => true
  end.

(** [not isinstance(v, list) or len(v) == 0]. *)
Definition bad_list (v : value) : bool :=
  match v with
  | VList xs => (List.length xs =? 0)%nat
  | _ => true
  end.

(** In [validate_task] the length is taken of [task.get(key, "")]; the
    [isinstance] test before it lets only strings through. *)
Definition validate_task (task : gmap string value) : outcome :=
  if bad_id task then
    raise (ValueError "Task must have a valid id")
  else if negb (is_str (get task "title"))
          || (match get_default task "title" (VStr "") with
              | VStr s => (String.length s <? 3)%nat
              | _ => true
              end) then
    raise (ValueError "Task title must be at least 3 characters")
  else if negb (is_str (get task "objective"))
          || (match get_default task "objective" (VStr "") with
              | VStr s => (String.length s <? 10)%nat
              | _ => true
              end) then
    raise (ValueError "Task objective must be at least 10 characters")
  else if bad_actor (get task "initiator") then
    raise (ValueError "Task must have a valid initiator")
  else passed.

Definition validate_proposal (proposal : gmap string value) : outcome :=
  if bad_id proposal then
    raise (ValueError "Proposal must have a valid id")
  else if negb (truthy (get proposal "task_id"))
          && negb (truthy (get proposal "taskId")) then
    raise (ValueError "Proposal must reference a task")
  else if bad_actor (get proposal "proposer") then
    raise (ValueError "Proposal must have a valid proposer")
  else if bad_text (get_default proposal "approach" (VStr "")) 20 then
    raise (ValueError "Proposal approach must be at least 20 characters")
  else
    match get proposal "timeline" with
    | VDict tl =>
        if negb (truthy (get tl "estimated_completion")) then
          raise (ValueError "Proposal must have an estimated completion date")
        else passed
    | _ => raise (ValueError "Proposal must have an estimated completion date")
    end.

Definition validate_deliverable (deliverable : gmap string value) : outcome :=
  if bad_id deliverable then
    raise (ValueError "Deliverable must have a valid id")
  else if negb (truthy (get deliverable "task_id")) then
    raise (ValueError "Deliverable must reference a task")
  else if negb (truthy (get deliverable "contract_id")) then
    raise (ValueError "Deliverable must reference a contract")
  else if bad_actor (get deliverable "submitter") then
    raise (ValueError "Deliverable must have a valid submitter")
  else if bad_list (get_default deliverable "artifacts" (VList [])) then
    raise (ValueError "Deliverable must have at least one artifact")
  else
    match get deliverable "evidence" with
    | VDict ev =>
        if bad_list (get_default ev "items" (VList [])) then
          raise (ValueError "Deliverable must have at least one evidence item")
        else passed
    | _ => raise (ValueError "Deliverable must have evidence data")
    end.

Definition validate_review (review : gmap string value) : outcome :=
  if bad_id review then
    raise (ValueError "Review must have a valid id")
  else if negb (truthy (get review "deliverable_id")) then
    raise (ValueError "Review must reference a deliverable")
  else if bad_actor (get review "reviewer") then
    raise (ValueError "Review must have a valid reviewer")
  else if negb (truthy (get review "decision")) then
    raise (ValueError "Review must have a decision")
  else passed.

End Validator.

(** ** client.py *)

Module Client.

(** *** The world a client runs in *)

(** A reference to a dict object of the caller. *)
Definition ref : Type := nat.

(** What [httpx.AsyncClient] is asked to send: the body is the text
    [json.dumps] produced, kept here as the value it encodes. *)
Record Request : Type := mkRequest {
  method : string;
  url : string;
  headers : gmap string string;
  content : option value
}.

(** What the server answers; [json] is what [response.json()] gives: the
    decoded value, or the decoder's message when the body is not JSON. *)
Record Response : Type := mkResponse {
  status_code : Z;
  text : string;
  json : string + value
}.

(** What comes of a request: httpx raises, for the reason given, or the
    server's answer arrives. *)
Inductive reply : Type :=
  | NoAnswer (reason : string)
  | Answered (rs : Response).

(** The oracles: the clock in milliseconds ([int(time.time() * 1000)]) and
    as ISO text ([datetime.utcnow().isoformat()]) at the n-th reading, the
    n-th draw of the random generator, and what comes of a request given
    the requests issued before. *)
Record Env : Type := mkEnv {
  time_ms : nat -> Z;
  utcnow_iso : nat -> string;
  draw : nat -> nat;
  server : list Request -> Request -> reply
}.

(** The mutable state: the dict objects of the caller (a reference the map
    does not bind holds the empty dict), how often the clock was read and
    the generator drawn from, and the requests issued so far, oldest
    first. *)
Record World : Type := mkWorld {
  heap : gmap ref (gmap string value);
  ticks : nat;
  draws : nat;
  sent : list Request
}.

Definition obj (w : World) (r : ref) : gmap string value :=
  default ∅ (heap w !! r).

(** Computations: they read the oracles, change the world and either raise
    or return.  What was changed before an exception stays changed. *)
Definition M (A : Type) : Type := Env -> World -> (exc + A) * World.

Definition ret {A} (a : A) : M A := fun _ w => (inr a, w).

Definition raise {A} (e : exc) : M A := fun _ w => (inl e, w).

Definition bind {A B} (m : M A) (k : A -> M B) : M B :=
  fun env w =>
    match m env w with
    | (inl e, w') => (inl e, w')
    | (inr a, w') => k a env w'
    end.

Notation "x <~ m ;; k" := (bind m (fun x => k))
  (at level 100, m at next level, right associativity).
Notation "m ;;; k" := (bind m (fun _ => k))
  (at level 100, right associativity).

(** [if c: body] for a statement [body]. *)
Definition when (c : bool) (m : M unit) : M unit :=
  if c then m else ret tt.

Definition load (r : ref) : M (gmap string value) :=
  fun _ w => (inr (obj w r), w).

(** [d[k] = v] on the object behind [r]. *)
Definition setitem (r : ref) (k : string) (v : value) : M unit :=
  fun _ w =>
    (inr tt,
     {| heap := <[r := <[k := v]> (obj w r)]> (heap w);
        ticks := ticks w; draws := draws w; sent := sent w |}).

Definition read_time_ms : M Z :=
  fun env w =>
    (inr (time_ms env (ticks w)),
     {| heap := heap w; ticks := S (ticks w); draws := draws w; sent := sent w |}).

Definition read_utcnow : M string :=
  fun env w =>
    (inr (utcnow_iso env (ticks w)),
     {| heap := heap w; ticks := S (ticks w); draws := draws w; sent := sent w |}).

Definition next_draw : M nat :=
  fun env w =>
    (inr (draw env (draws w)),
     {| heap := heap w; ticks := ticks w; draws := S (draws w); sent := sent w |}).

(** One round trip: the request is appended to the log; then httpx
    raises or the answer arrives. *)
Definition send (rq : Request) : M Response :=
  fun env w =>
    (match server env (sent w) rq with
     | NoAnswer reason => inl (TransportError reason)
     | Answered rs => inr rs
     end,
     {| heap := heap w; ticks := ticks w; draws := draws w;
        sent := sent w ++ [rq] |}).

(** A validator called on the caller's object. *)
Definition call_validator (v : gmap string value -> Validator.outcome)
    (r : ref) : M unit :=
  d <~ load r ;;
  match v d with
  | inl e => raise e
  | inr _ => ret tt
  end.

(** *** Strings *)

(** [string.ascii_lowercase + string.digits]. *)
Definition alphabet : list ascii :=
  list_ascii_of_string "abcdefghijklmnopqrstuvwxyz0123456789".

(** [random.choices(population, k=k)]: [k] independent picks. *)
Fixpoint random_choices (population : list ascii) (k : nat) : M (list ascii) :=
  match k with
  | O => ret []
  | S k' =>
      i <~ next_draw ;;
      rest <~ random_choices population k' ;;
      ret (nth (i mod List.length population) population "a"%char :: rest)
  end.

Definition upper_char (c : ascii) : ascii :=
  let n := nat_of_ascii c in
  if ((97 <=? n) && (n <=? 122))%nat then ascii_of_nat (n - 32) else c.

(** [s.upper()] on ASCII text. *)
Fixpoint upper (s : string) : string :=
  match s with
  | EmptyString => EmptyString
  | String c s' => String (upper_char c) (upper s')
  end.

(** [s.rstrip("/")]. *)
Fixpoint rstrip_slash (s : string) : string :=
  match s with
  | EmptyString => EmptyString
  | String c s' =>
      match rstrip_slash s' with
      | EmptyString => if Ascii.eqb c "/" then EmptyString else String c EmptyString
      | t => String c t
      end
  end.

(** *** OHAPClient *)

Record OHAPClient : Type := mkClient {
  base_url : string;
  api_key : option string;
  validate_schemas : bool
}.

(** [OHAPClient.__init__]; [httpx] tells whether the import of httpx
    succeeded. *)
Definition __init__ (httpx : bool) (base_url : string)
    (api_key : option string) (validate_schemas : bool) : exc + OHAPClient :=
  if negb httpx then
    inl (ImportError "httpx is required. Install with: pip install httpx")
  else
    inr {| base_url := rstrip_slash base_url;
           api_key := api_key;
           validate_schemas := validate_schemas |}.

Definition _generate_id (prefix : string) : M string :=
  timestamp <~ read_time_ms ;;
  random_part <~ random_choices alphabet 9 ;;
  ret (prefix ++ "-" ++ pretty timestamp ++ "-"
       ++ string_of_list_ascii random_part).

Definition _now : M string :=
  t <~ read_utcnow ;;
  ret (t ++ "Z").

Definition request_headers (self : OHAPClient) : gmap string string :=
  match api_key self with
  | Some k =>
      if negb (String.length k =? 0)%nat
      then <["Authorization" := "Bearer " ++ k]>
             {["Content-Type" := "application/json"]}
      else {["Content-Type" := "application/json"]}
  | None => {["Content-Type" := "application/json"]}
  end.

(** [json.dumps(body) if body else None]. *)
Definition dumps_body (body : option ref) : M (option value) :=
  match body with
  | None => ret None
  | Some r =>
      d <~ load r ;;
      ret (if truthy (VDict d) then Some (VDict d) else None)
  end.

Definition _request (self : OHAPClient) (method path : string)
    (body : option ref) : M value :=
  let url := base_url self ++ path in
  let headers := request_headers self in
  response <~
    (if String.eqb (upper method) "GET" then
       send (mkRequest "GET" url headers None)
     else if String.eqb (upper method) "POST" then
       c <~ dumps_body body ;;
       send (mkRequest "POST" url headers c)
     else if String.eqb (upper method) "PATCH" then
       c <~ dumps_body body ;;
       send (mkRequest "PATCH" url headers c)
     else raise (ValueError ("Unsupported method: " ++ method))) ;;
  if 400 <=? status_code response then
    raise (Exception ("OHAP API error: " ++ pretty (status_code response)
                      ++ " " ++ text response))
  else
    match json response with
    | inl msg => raise (JSONDecodeError msg)
    | inr data => ret data
    end.

(** [if key not in d: d[key] = <computed>]. *)
Definition fill (r : ref) (key : string) (mk : M value) : M unit :=
  d <~ load r ;;
  when (negb (contains d key)) (v <~ mk ;; setitem r key v).

Definition fresh_id (prefix : string) : M value :=
  i <~ _generate_id prefix ;; ret (VStr i).

Definition now_value : M value :=
  t <~ _now ;; ret (VStr t).

Definition create_task (self : OHAPClient) (task : ref) : M value :=
  fill task "id" (fresh_id "task") ;;;
  fill task "version" (ret (VStr "0.1")) ;;;
  fill task "status" (ret (VStr "draft")) ;;;
  fill task "created_at" now_value ;;;
  when (validate_schemas self)
    (call_validator Validator.validate_task task) ;;;
  _request self "POST" "/tasks" (Some task).

Definition submit_proposal (self : OHAPClient) (proposal : ref) : M value :=
  fill proposal "id" (fresh_id "prop") ;;;
  fill proposal "status" (ret (VStr "submitted")) ;;;
  fill proposal "created_at" now_value ;;;
  when (validate_schemas self)
    (call_validator Validator.validate_proposal proposal) ;;;
  _request self "POST" "/proposals" (Some proposal).

Definition accept_proposal (self : OHAPClient) (proposal_id : string) : M value :=
  _request self "POST" ("/proposals/" ++ proposal_id ++ "/accept") None.

Definition submit_deliverable (self : OHAPClient) (deliverable : ref) : M value :=
  fill deliverable "id" (fresh_id "deliv") ;;;
  fill deliverable "status" (ret (VStr "submitted")) ;;;
  fill deliverable "submitted_at" now_value ;;;
  when (validate_schemas self)
    (call_validator Validator.validate_deliverable deliverable) ;;;
  _request self "POST" "/deliverables" (Some deliverable).

Definition submit_review (self : OHAPClient) (review : ref) : M value :=
  fill review "id" (fresh_id "rev") ;;;
  fill review "reviewed_at" now_value ;;;
  when (validate_schemas self)
    (call_validator Validator.validate_review review) ;;;
  _request self "POST" "/reviews" (Some review).

End Client.

Import Client.

(** ** validator.py, statement by statement

    The validators as Python runs them: each receives a reference to the
    caller's dict and looks fields up in the object behind it, one
    [.get] at a time, in a world where objects can be written, the clock
    read and requests sent. *)

Module Stepwise.

(** [d.get(k)] and [d.get(k, dflt)] on the object behind [d]. *)
Definition get_at (d : ref) (k : string) : M value :=
  o <~ load d ;; ret (get o k).

Definition get_default_at (d : ref) (k : string) (dflt : value) : M value :=
  o <~ load d ;; ret (get_default o k dflt).

(** [a or b] and [a and b] on truth values: [b] is evaluated only when
    [a] does not decide. *)
Definition or_else (a : bool) (b : M bool) : M bool :=
  if a then ret true else b.

Definition and_then (a : bool) (b : M bool) : M bool :=
  if a then b else ret false.

(** [not isinstance(d.get("id"), str) or not d.get("id")]. *)
Definition bad_id_at (d : ref) : M bool :=
  i <~ get_at d "id" ;;
  or_else (negb (is_str i)) (i' <~ get_at d "id" ;; ret (negb (truthy i'))).

(** [not isinstance(d.get(k), str) or len(d.get(k, "")) < n]. *)
Definition short_text_at (d : ref) (k : string) (n : nat) : M bool :=
  t <~ get_at d k ;;
  or_else (negb (is_str t))
    (t' <~ get_default_at d k (VStr "") ;; ret (Validator.bad_text t' n)).

(** [not d.get(k)]. *)
Definition missing_at (d : ref) (k : string) : M bool :=
  v <~ get_at d k ;; ret (negb (truthy v)).

Definition validate_task (task : ref) : M unit :=
  c1 <~ bad_id_at task ;;
  if c1 then raise (ValueError "Task must have a valid id") else
  (c2 <~ short_text_at task "title" 3 ;;
   if c2 then raise (ValueError "Task title must be at least 3 characters") else
   (c3 <~ short_text_at task "objective" 10 ;;
    if c3 then raise (ValueError "Task objective must be at least 10 characters")
    else
    (initiator <~ get_at task "initiator" ;;
     if Validator.bad_actor initiator
     then raise (ValueError "Task must have a valid initiator")
     else ret tt))).

Definition validate_proposal (proposal : ref) : M unit :=
  c1 <~ bad_id_at proposal ;;
  if c1 then raise (ValueError "Proposal must have a valid id") else
  (a <~ missing_at proposal "task_id" ;;
   c2 <~ and_then a (missing_at proposal "taskId") ;;
   if c2 then raise (ValueError "Proposal must reference a task") else
   (proposer <~ get_at proposal "proposer" ;;
    if Validator.bad_actor proposer
    then raise (ValueError "Proposal must have a valid proposer") else
    (approach <~ get_default_at proposal "approach" (VStr "") ;;
     if Validator.bad_text approach 20
     then raise (ValueError "Proposal approach must be at least 20 characters")
     else
     (timeline <~ get_at proposal "timeline" ;;
      match timeline with
      | VDict tl =>
          if negb (truthy (get tl "estimated_completion"))
          then raise (ValueError "Proposal must have an estimated completion date")
          else ret tt
      | _ => raise (ValueError "Proposal must have an estimated completion date")
      end)))).

Definition validate_deliverable (deliverable : ref) : M unit :=
  c1 <~ bad_id_at deliverable ;;
  if c1 then raise (ValueError "Deliverable must have a valid id") else
  (c2 <~ missing_at deliverable "task_id" ;;
   if c2 then raise (ValueError "Deliverable must reference a task") else
   (c3 <~ missing_at deliverable "contract_id" ;;
    if c3 then raise (ValueError "Deliverable must reference a contract") else
    (submitter <~ get_at deliverable "submitter" ;;
     if Validator.bad_actor submitter
     then raise (ValueError "Deliverable must have a valid submitter") else
     (artifacts <~ get_default_at deliverable "artifacts" (VList []) ;;
      if Validator.bad_list artifacts
      then raise (ValueError "Deliverable must have at least one artifact") else
      (evidence <~ get_at deliverable "evidence" ;;
       match evidence with
       | VDict ev =>
           if Validator.bad_list (get_default ev "items" (VList []))
           then raise (ValueError "Deliverable must have at least one evidence item")
           else ret tt
       | _ => raise (ValueError "Deliverable must have evidence data")
       end))))).

Definition validate_review (review : ref) : M unit :=
  c1 <~ bad_id_at review ;;
  if c1 then raise (ValueError "Review must have a valid id") else
  (c2 <~ missing_at review "deliverable_id" ;;
   if c2 then raise (ValueError "Review must reference a deliverable") else
   (reviewer <~ get_at review "reviewer" ;;
    if Validator.bad_actor reviewer
    then raise (ValueError "Review must have a valid reviewer") else
    (c4 <~ missing_at review "decision" ;;
     if c4 then raise (ValueError "Review must have a decision") else ret tt))).

End Stepwise.

(** ** The four workflow operations, uniformly *)

Inductive operation : Type :=
  | CreateTask
  | SubmitProposal
  | SubmitDeliverable
  | SubmitReview.

Definition run_operation (op : operation) (self : OHAPClient) (r : ref) : M value :=
  match op with
  | CreateTask => create_task self r
  | SubmitProposal => submit_proposal self r
  | SubmitDeliverable => submit_deliverable self r
  | SubmitReview => submit_review self r
  end.

Definition validator_of (op : operation) : gmap string value -> Validator.outcome :=
  match op with
  | CreateTask => Validator.validate_task
  | SubmitProposal => Validator.validate_proposal
  | SubmitDeliverable => Validator.validate_deliverable
  | SubmitReview => Validator.validate_review
  end.

(** The validator of an operation as Python runs it, on a reference. *)
Definition validate_at (op : operation) : ref -> M unit :=
  match op with
  | CreateTask => Stepwise.validate_task
  | SubmitProposal => Stepwise.validate_proposal
  | SubmitDeliverable => Stepwise.validate_deliverable
  | SubmitReview => Stepwise.validate_review
  end.

Definition path_of (op : operation) : string :=
  match op with
  | CreateTask => "/tasks"
  | SubmitProposal => "/proposals"
  | SubmitDeliverable => "/deliverables"
  | SubmitReview => "/reviews"
  end.

Definition prefix_of (op : operation) : string :=
  match op with
  | CreateTask => "task"
  | SubmitProposal => "prop"
  | SubmitDeliverable => "deliv"
  | SubmitReview => "rev"
  end.

(** The keys an operation fills in when the caller left them out. *)
Definition default_keys (op : operation) : list string :=
  match op with
  | CreateTask => ["id"; "version"; "status"; "created_at"]
  | SubmitProposal => ["id"; "status"; "created_at"]
  | SubmitDeliverable => ["id"; "status"; "submitted_at"]
  | SubmitReview => ["id"; "reviewed_at"]
  end.

(** The default filling an operation starts with, on its own. *)
Definition fill_defaults (op : operation) (r : ref) : M unit :=
  match op with
  | CreateTask =>
      fill r "id" (fresh_id "task") ;;;
      fill r "version" (ret (VStr "0.1")) ;;;
      fill r "status" (ret (VStr "draft")) ;;;
      fill r "created_at" now_value
  | SubmitProposal =>
      fill r "id" (fresh_id "prop") ;;;
      fill r "status" (ret (VStr "submitted")) ;;;
      fill r "created_at" now_value
  | SubmitDeliverable =>
      fill r "id" (fresh_id "deliv") ;;;
      fill r "status" (ret (VStr "submitted")) ;;;
      fill r "submitted_at" now_value
  | SubmitReview =>
      fill r "id" (fresh_id "rev") ;;;
      fill r "reviewed_at" now_value
  end.

(** The request an operation issues for the object [d]. *)
Definition post_of (op : operation) (self : OHAPClient) (d : gmap string value) : Request :=
  mkRequest "POST" (base_url self ++ path_of op) (request_headers self)
            (Some (VDict d)).

(** How [_request] turns what comes of the request into a result. *)
Definition answer (rp : reply) : exc + value :=
  match rp with
  | NoAnswer reason => inl (TransportError reason)
  | Answered rs =>
      if 400 <=? status_code rs then
        inl (Exception ("OHAP API error: " ++ pretty (status_code rs)
                        ++ " " ++ text rs))
      else
        match json rs with
        | inl msg => inl (JSONDecodeError msg)
        | inr data => inr data
        end
  end.

(** The world after one more request. *)
Definition after_send (w : World) (rq : Request) : World :=
  {| heap := heap w; ticks := ticks w; draws := draws w; sent := sent w ++ [rq] |}.

(** ** Default filling *)

(** A sequence of [if key not in d: d[key] = ...] statements. *)
Fixpoint fill_all (r : ref) (l : list (string * M value)) : M unit :=
  match l with
  | [] => ret tt
  | (k, mk) :: l' =>
      match l' with
      | [] => fill r k mk
      | _ => fill r k mk ;;; fill_all r l'
      end
  end.

Definition defaults_of (op : operation) : list (string * M value) :=
  match op with
  | CreateTask =>
      [("id", fresh_id "task"); ("version", ret (VStr "0.1"));
       ("status", ret (VStr "draft")); ("created_at", now_value)]
  | SubmitProposal =>
      [("id", fresh_id "prop"); ("status", ret (VStr "submitted"));
       ("created_at", now_value)]
  | SubmitDeliverable =>
      [("id", fresh_id "deliv"); ("status", ret (VStr "submitted"));
       ("submitted_at", now_value)]
  | SubmitReview =>
      [("id", fresh_id "rev"); ("reviewed_at", now_value)]
  end.

(** The world an operation leaves after its default filling. *)
Definition filled (op : operation) (r : ref) (env : Env) (w : World) : World :=
  snd (fill_defaults op r env w).

(** A computation that always returns and touches neither the objects nor
    the network. *)
Definition quiet {A} (m : M A) : Prop :=
  forall e w, exists a w',
    m e w = (inr a, w') /\ heap w' = heap w /\ sent w' = sent w.

(** [grown K r w w']: from [w] to [w'] nothing was sent, the object behind
    [r] only gained entries, all of them under keys of [K], and no other
    object changed. *)
Definition grown (K : list string) (r : ref) (w w' : World) : Prop :=
  sent w' = sent w
  /\ obj w r ⊆ obj w' r
  /\ (forall r', r' ≠ r -> obj w' r' = obj w r')
  /\ (forall k, k ∉ K -> obj w' r !! k = obj w r !! k).

(** ** Sample data *)

Module Samples.

(** The closed set of review decisions of [types.py]. *)
Definition ReviewDecision : list string :=
  ["accepted"; "rejected"; "revision-requested"; "escalated"].

Definition actor (id : string) : value := VDict {["id" := VStr id]}.

(** The task, deliverable and review of [tests/test_client.py]
    ([TestValidation]). *)
Definition test_task : gmap string value :=
  <["title" := VStr "Test"]> (<["objective" := VStr "Test"]>
    {["initiator" := VDict (<["id" := VStr "a"]> {["type" := VStr "agent"]})]}).

Definition test_deliverable : gmap string value :=
  <["task_id" := VStr "task-001"]> (<["contract_id" := VStr "contract-001"]>
    (<["submitter" := actor "human-001"]> {["artifacts" := VList []]})).

Definition test_review : gmap string value :=
  <["deliverable_id" := VStr "del-001"]> (<["task_id" := VStr "task-001"]>
    (<["reviewer" := VDict (<["id" := VStr "agent-001"]> {["type" := VStr "agent"]})]>
      {["decision" := VStr "accepted"]})).

(** A task that breaks two rules: title and objective are both too short. *)
Definition twice_wrong_task : gmap string value :=
  <["id" := VStr "task-1"]> (<["title" := VStr "ab"]>
    (<["objective" := VStr "short"]> {["initiator" := actor "a1"]})).

(** A well-formed task and the same task with an empty title. *)
Definition logo_task : gmap string value :=
  <["title" := VStr "Logo"]>
    (<["objective" := VStr "Create a memorable logo design"]>
      {["initiator" := actor "a1"]}).

Definition untitled_task : gmap string value :=
  <["title" := VStr ""]> logo_task.

(** A proposal that names its task as [taskId]. *)
Definition camel_proposal : gmap string value :=
  <["id" := VStr "prop-1"]> (<["taskId" := VStr "task-1"]>
    (<["proposer" := actor "h1"]>
      (<["approach" := VStr "I will create three concept directions"]>
        {["timeline" := VDict {["estimated_completion" := VStr "2026-02-18T17:00:00Z"]}]}))).



(** A proposal the server has rejected. *)
Definition rejected_proposal : gmap string value :=
  <["status" := VStr "rejected"]> (<["task_id" := VStr "task-1"]> camel_proposal).

(** A review whose decision is outside [ReviewDecision]. *)
Definition odd_review : gmap string value :=
  <["id" := VStr "rev-1"]> (<["deliverable_id" := VStr "del-001"]>
    (<["reviewer" := actor "agent-001"]> {["decision" := VStr "maybe"]})).

(** A task whose id is given as [None]. *)
Definition none_id_task : gmap string value :=
  <["id" := VNone]> logo_task.

(** A server that accepts everything and answers with a contract. *)
Definition contract : value :=
  VDict (<["id" := VStr "contract-001"]> (<["proposal_id" := VStr "prop-1"]>
    {["status" := VStr "active"]})).

Definition env0 : Env :=
  mkEnv (fun _ => 1700000000123) (fun _ => "2026-02-18T17:00:00")
        (fun n => (7 * n + 3)%nat)
        (fun _ _ => Answered (mkResponse 200 "OK" (inr contract))).

(** Another clock, another generator, and a server that refuses. *)
Definition env1 : Env :=
  mkEnv (fun n => 1800000000000 + Z.of_nat n) (fun _ => "2027-01-01T00:00:00")
        (fun n => (n * n)%nat)
        (fun _ _ => Answered (mkResponse 500 "Internal Server Error" (inr VNone))).

(** The caller holds one dict, behind reference 0. *)
Definition world_with (d : gmap string value) : World :=
  mkWorld {[ 0%nat := d ]} 0 0 [].

(** A later world: the same kind of dict behind reference 1, the clock
    read and the generator drawn from, one request already sent. *)
Definition later_world_with (d : gmap string value) : World :=
  mkWorld {[ 1%nat := d ]} 5 7
          [mkRequest "GET" "http://localhost:3000/tasks/task-1"
                     {["Content-Type" := "application/json"]} None].

Definition strict_client : OHAPClient := mkClient "http://localhost:3000" None true.
Definition lax_client : OHAPClient := mkClient "http://localhost:3000" None false.

End Samples.

(** ** What the protocol description asks, as predicates on the code *)

Module Statements.



(** [accept_proposal] is refused locally for a proposal: the call made with
    the proposal's id raises and leaves the world, the log of requests
    included, as it was. *)
Definition refused_locally (self : OHAPClient) (env : Env) (w : World)
    (proposal : gmap string value) : Prop :=
  forall pid, proposal !! "id" = Some (VStr pid) ->
    exists e, accept_proposal self pid env w = (inl e, w).

(** An operation leaves the caller's candidate as it was. *)
Definition leaves_candidate_unmodified (op : operation) (self : OHAPClient)
    (r : ref) (env : Env) (w : World) : Prop :=
  obj (snd (run_operation op self r env w)) r = obj w r.

End Statements.

(** ** client.py: reading and updating *)

Module ClientRest.

(** A new dict object ([{...}] evaluated): it lives behind a reference no
    object of the caller has. *)
Definition alloc (d : gmap string value) : M ref :=
  fun _ w =>
    let l := fresh (dom (heap w)) in
    (inr l,
     {| heap := <[l := d]> (heap w);
        ticks := ticks w; draws := draws w; sent := sent w |}).

Definition get_task (self : OHAPClient) (task_id : string) : M value :=
  _request self "GET" ("/tasks/" ++ task_id) None.

Definition update_task (self : OHAPClient) (task_id : string) (updates : ref) : M value :=
  _request self "PATCH" ("/tasks/" ++ task_id) (Some updates).

(** [if v: filters[key] = v] for an optional string [v]. *)
Definition add_filter (key : string) (v : option string)
    (filters : list (string * string)) : list (string * string) :=
  match v with
  | Some s => if negb (String.length s =? 0)%nat then filters ++ [(key, s)] else filters
  | None => filters
  end.

(** [list_tasks]; [urlencode] is [urllib.parse.urlencode] on the filters in
    the order they were put in. *)
Definition list_tasks (urlencode : list (string * string) -> string)
    (self : OHAPClient) (status domain initiator_id : option string) : M value :=
  let filters :=
    add_filter "initiator_id" initiator_id
      (add_filter "domain" domain (add_filter "status" status [])) in
  let query :=
    if negb (List.length filters =? 0)%nat then "?" ++ urlencode filters else "" in
  _request self "GET" ("/tasks" ++ query) None.

Definition get_proposals (self : OHAPClient) (task_id : string) : M value :=
  _request self "GET" ("/tasks/" ++ task_id ++ "/proposals") None.

Definition update_proposal_status (self : OHAPClient) (proposal_id status : string) : M value :=
  b <~ alloc {["status" := VStr status]} ;;
  _request self "PATCH" ("/proposals/" ++ proposal_id) (Some b).

Definition get_contract (self : OHAPClient) (contract_id : string) : M value :=
  _request self "GET" ("/contracts/" ++ contract_id) None.

Definition update_contract (self : OHAPClient) (contract_id : string) (updates : ref) : M value :=
  _request self "PATCH" ("/contracts/" ++ contract_id) (Some updates).

Definition get_deliverable (self : OHAPClient) (deliverable_id : string) : M value :=
  _request self "GET" ("/deliverables/" ++ deliverable_id) None.

Definition get_review (self : OHAPClient) (review_id : string) : M value :=
  _request self "GET" ("/reviews/" ++ review_id) None.

End ClientRest.

(** ** client.py: the LangChain tools *)

Module LangChain.

Import ClientRest.

(** What a tool can raise: what the client raises, and the errors of
    reading the server's answer ([answer["id"]], [answer.get(...)]). *)
Inductive tool_exc : Type :=
  | Raised (e : exc)
  | KeyError (key : string)
  | TypeError
  | AttributeError.

Definition T (A : Type) : Type := Env -> World -> (tool_exc + A) * World.

Definition lift {A} (m : M A) : T A :=
  fun env w =>
    match m env w with
    | (inl e, w') => (inl (Raised e), w')
    | (inr a, w') => (inr a, w')
    end.

Definition tbind {A B} (m : T A) (k : A -> T B) : T B :=
  fun env w =>
    match m env w with
    | (inl e, w') => (inl e, w')
    | (inr a, w') => k a env w'
    end.

Definition result {A} (x : tool_exc + A) : T A := fun _ w => (x, w).

(** [v[key]]. *)
Definition subscript (v : value) (key : string) : tool_exc + value :=
  match v with
  | VDict d =>
      match d !! key with
      | Some x => inr x
      | None => inl (KeyError key)
      end
  | _ => inl TypeError
  end.

(** [v.get(key)]. *)
Definition dot_get (v : value) (key : string) : tool_exc + value :=
  match v with
  | VDict d => inr (get d key)
  | _ => inl AttributeError
  end.

(** [json.dumps({k1: <first>, k2: <second>})], the entries evaluated left
    to right; the text is kept as the value it encodes. *)
Definition dumps_pair (k1 : string) (first : tool_exc + value)
    (k2 : string) (second : tool_exc + value) : T value :=
  tbind (result first) (fun a =>
  tbind (result second) (fun b =>
  result (inr (VDict (<[k2 := b]> {[k1 := a]}))))).

Section Tools.

Context (self : OHAPClient) (initiator_id initiator_type : string).

Definition ohap_create_task (title objective : string) : T value :=
  tbind (lift (alloc
    (<["initiator" := VDict (<["type" := VStr initiator_type]>
                               {["id" := VStr initiator_id]})]>
      (<["objective" := VStr objective]> {["title" := VStr title]}))))
  (fun r =>
  tbind (lift (create_task self r)) (fun task =>
  dumps_pair "id" (subscript task "id") "title" (dot_get task "title"))).

Definition ohap_submit_proposal
    (task_id proposer_id proposer_type approach : string) : T value :=
  tbind (lift (alloc
    (<["approach" := VStr approach]>
      (<["proposer" := VDict (<["type" := VStr proposer_type]>
                                {["id" := VStr proposer_id]})]>
        {["task_id" := VStr task_id]}))))
  (fun r =>
  tbind (lift (submit_proposal self r)) (fun proposal =>
  dumps_pair "id" (subscript proposal "id")
             "task_id" (subscript proposal "task_id"))).

Definition ohap_submit_deliverable
    (task_id contract_id submitter_id artifact_reference : string) : T value :=
  tbind (lift (alloc
    (<["artifacts" := VList [VDict (<["reference" := VStr artifact_reference]>
                                      {["type" := VStr "url"]})]]>
      (<["submitter" := VDict {["id" := VStr submitter_id]}]>
        (<["contract_id" := VStr contract_id]> {["task_id" := VStr task_id]})))))
  (fun r =>
  tbind (lift (submit_deliverable self r)) (fun deliverable =>
  dumps_pair "id" (subscript deliverable "id")
             "task_id" (subscript deliverable "task_id"))).

Definition ohap_submit_review
    (deliverable_id task_id reviewer_id decision : string) : T value :=
  tbind (lift (alloc
    (<["decision" := VStr decision]>
      (<["reviewer" := VDict (<["type" := VStr "initiator"]>
                                {["id" := VStr reviewer_id]})]>
        (<["task_id" := VStr task_id]> {["deliverable_id" := VStr deliverable_id]})))))
  (fun r =>
  tbind (lift (submit_review self r)) (fun review =>
  dumps_pair "id" (subscript review "id")
             "decision" (dot_get review "decision"))).

End Tools.

(** The four tools [to_langchain_tools] returns. *)
Record Tools : Type := mkTools {
  tool_create_task : string -> string -> T value;
  tool_submit_proposal : string -> string -> string -> string -> T value;
  tool_submit_deliverable : string -> string -> string -> string -> T value;
  tool_submit_review : string -> string -> string -> string -> T value
}.

(** The [@tool(name)] decorator of langchain, which is no part of this
    repository: given the name and the docstring of a function it accepts
    the function ([None]) or raises.  A function it accepts is taken to
    run as written. *)
Definition decorator : Type := string -> option string -> option exc.

(** [to_langchain_tools]; [langchain] is the decorator when the import of
    [langchain.tools] succeeded.  The four functions are decorated in the
    order they are written, none of them has a docstring, and the first
    refusal is raised. *)
Definition to_langchain_tools (langchain : option decorator) (self : OHAPClient)
    (initiator_id initiator_type : string) : exc + Tools :=
  match langchain with
  | None =>
      inl (ImportError
        "LangChain is required. Install with: pip install langchain langchain-openai")
  | Some tool =>
      match tool "ohap_create_task" None with
      | Some e => inl e
      | None =>
      match tool "ohap_submit_proposal" None with
      | Some e => inl e
      | None =>
      match tool "ohap_submit_deliverable" None with
      | Some e => inl e
      | None =>
      match tool "ohap_submit_review" None with
      | Some e => inl e
      | None =>
          inr {| tool_create_task :=
                   ohap_create_task self initiator_id initiator_type;
                 tool_submit_proposal := ohap_submit_proposal self;
                 tool_submit_deliverable := ohap_submit_deliverable self;
                 tool_submit_review := ohap_submit_review self |}
      end end end end
  end.

End LangChain.

(** ** Shapes of fields and what each function reads or says *)

Module Shapes.

(** The field holds a non-empty string. *)
Definition nonempty_str (f : option value) : Prop :=
  exists s, f = Some (VStr s) /\ s ≠ "".

(** The field holds a string of at least [n] characters. *)
Definition str_at_least (n : nat) (f : option value) : Prop :=
  exists s, f = Some (VStr s) /\ (n <= String.length s)%nat.

(** The field holds a dict whose [id] is a true value. *)
Definition actor_with_id (f : option value) : Prop :=
  exists a, f = Some (VDict a) /\ truthy (get a "id") = true.

(** The field holds a list with at least one element. *)
Definition nonempty_list (f : option value) : Prop :=
  exists x xs, f = Some (VList (x :: xs)).

(** The field is present and holds a true value. *)
Definition present (f : option value) : Prop :=
  exists v, f = Some v /\ truthy v = true.

(** The keys a validator looks at. *)
Definition read_keys (op : operation) : list string :=
  match op with
  | CreateTask => ["id"; "title"; "objective"; "initiator"]
  | SubmitProposal =>
      ["id"; "task_id"; "taskId"; "proposer"; "approach"; "timeline"]
  | SubmitDeliverable =>
      ["id"; "task_id"; "contract_id"; "submitter"; "artifacts"; "evidence"]
  | SubmitReview => ["id"; "deliverable_id"; "reviewer"; "decision"]
  end.

(** The messages a validator raises, in the order of its checks. *)
Definition messages (op : operation) : list string :=
  match op with
  | CreateTask =>
      ["Task must have a valid id";
       "Task title must be at least 3 characters";
       "Task objective must be at least 10 characters";
       "Task must have a valid initiator"]
  | SubmitProposal =>
      ["Proposal must have a valid id";
       "Proposal must reference a task";
       "Proposal must have a valid proposer";
       "Proposal approach must be at least 20 characters";
       "Proposal must have an estimated completion date"]
  | SubmitDeliverable =>
      ["Deliverable must have a valid id";
       "Deliverable must reference a task";
       "Deliverable must reference a contract";
       "Deliverable must have a valid submitter";
       "Deliverable must have at least one artifact";
       "Deliverable must have evidence data";
       "Deliverable must have at least one evidence item"]
  | SubmitReview =>
      ["Review must have a valid id";
       "Review must reference a deliverable";
       "Review must have a valid reviewer";
       "Review must have a decision"]
  end.

(** The message of the check on the entity id. *)
Definition id_message (op : operation) : string :=
  match op with
  | CreateTask => "Task must have a valid id"
  | SubmitProposal => "Proposal must have a valid id"
  | SubmitDeliverable => "Deliverable must have a valid id"
  | SubmitReview => "Review must have a valid id"
  end.

(** The text ends with a slash. *)
Fixpoint ends_with_slash (s : string) : bool :=
  match s with
  | EmptyString => false
  | String c EmptyString => Ascii.eqb c "/"
  | String _ s' => ends_with_slash s'
  end.

(** [n] slashes. *)
Fixpoint slashes (n : nat) : string :=
  match n with
  | O => EmptyString
  | S n' => String "/" (slashes n')
  end.

(** The method is one [_request] knows, in any letter case. *)
Definition supported (m : string) : bool :=
  String.eqb (upper m) "GET" || String.eqb (upper m) "POST"
  || String.eqb (upper m) "PATCH".

(** The body [_request] puts into a POST or PATCH. *)
Definition content_of (w : World) (body : option ref) : option value :=
  match body with
  | None => None
  | Some r => if (size (obj w r) =? 0)%nat then None else Some (VDict (obj w r))
  end.

(** The GET request a client issues for a path. *)
Definition get_of (self : OHAPClient) (path : string) : Request :=
  mkRequest "GET" (base_url self ++ path) (request_headers self) None.

(** An empty filter text counts as no filter. *)
Definition given (f : option string) : option string :=
  match f with
  | Some s => if (String.length s =? 0)%nat then None else Some s
  | None => None
  end.

End Shapes.

(** ** Basic facts about the computations *)

Section Computations.

Context (env : Env).

Lemma obj_setitem r k v w :
  obj (snd (setitem r k v env w)) r = <[k := v]> (obj w r).
Proof. unfold obj; simpl. by rewrite lookup_insert_eq. Qed.

Lemma obj_setitem_ne r r' k v w :
  r' ≠ r -> obj (snd (setitem r k v env w)) r' = obj w r'.
Proof. intros Hne. unfold obj; simpl. by rewrite lookup_insert_ne. Qed.

Lemma contains_true (d : gmap string value) k :
  contains d k = true <-> is_Some (d !! k).
Proof. unfold contains. apply bool_decide_eq_true. Qed.

Lemma contains_false (d : gmap string value) k :
  contains d k = false <-> d !! k = None.
Proof.
  unfold contains. rewrite bool_decide_eq_false.
  split; [apply eq_None_not_Some | intros ->; apply is_Some_None].
Qed.

Lemma fill_run r key mk w :
  fill r key mk env w =
    if contains (obj w r) key then (inr tt, w)
    else bind mk (fun v => setitem r key v) env w.
Proof.
  unfold fill, bind, load, when; simpl.
  destruct (contains (obj w r) key); reflexivity.
Qed.

Lemma quiet_ret {A} (a : A) : quiet (ret a).
Proof. intros e w. exists a, w. done. Qed.

Lemma quiet_bind {A B} (m : M A) (k : A -> M B) :
  quiet m -> (forall a, quiet (k a)) -> quiet (bind m k).
Proof.
  intros Hm Hk e w. destruct (Hm e w) as (a & w1 & E1 & H1 & S1).
  destruct (Hk a e w1) as (b & w2 & E2 & H2 & S2).
  exists b, w2. unfold bind. rewrite E1, E2. split; [done|]. split; congruence.
Qed.

Lemma quiet_read_time_ms : quiet read_time_ms.
Proof. intros e w. eexists _, _. split; [reflexivity|]. done. Qed.

Lemma quiet_read_utcnow : quiet read_utcnow.
Proof. intros e w. eexists _, _. split; [reflexivity|]. done. Qed.

Lemma quiet_next_draw : quiet next_draw.
Proof. intros e w. eexists _, _. split; [reflexivity|]. done. Qed.

Lemma quiet_random_choices pop k : quiet (random_choices pop k).
Proof.
  induction k as [|k IH]; simpl.
  - apply quiet_ret.
  - apply quiet_bind; [apply quiet_next_draw|]. intros i.
    apply quiet_bind; [apply IH|]. intros rest. apply quiet_ret.
Qed.

Lemma quiet_fresh_id prefix : quiet (fresh_id prefix).
Proof.
  unfold fresh_id, _generate_id.
  apply quiet_bind; [|intros i; apply quiet_ret].
  apply quiet_bind; [apply quiet_read_time_ms|intros ts].
  apply quiet_bind; [apply quiet_random_choices|intros rp].
  apply quiet_ret.
Qed.

Lemma quiet_now_value : quiet now_value.
Proof.
  unfold now_value, _now.
  apply quiet_bind; [|intros t; apply quiet_ret].
  apply quiet_bind; [apply quiet_read_utcnow|intros t; apply quiet_ret].
Qed.

End Computations.

Lemma grown_refl K r w : grown K r w w.
Proof. repeat split; auto. Qed.

Lemma grown_trans K1 K2 r w w1 w2 :
  grown K1 r w w1 -> grown K2 r w1 w2 -> grown (K1 ++ K2) r w w2.
Proof.
  intros (S1 & I1 & O1 & F1) (S2 & I2 & O2 & F2). repeat split.
  - congruence.
  - etrans; eassumption.
  - intros r' Hr. rewrite O2, O1; auto.
  - intros k Hk. rewrite F2, F1; auto; intros ?; apply Hk;
      apply elem_of_app; auto.
Qed.

Section Filling.

Context (env : Env).

Lemma bind_ok {A B} (m : M A) (k : A -> M B) w a w1 :
  m env w = (inr a, w1) -> bind m k env w = k a env w1.
Proof. intros E. unfold bind. by rewrite E. Qed.

Lemma bind_err {A B} (m : M A) (k : A -> M B) w e w1 :
  m env w = (inl e, w1) -> bind m k env w = (inl e, w1).
Proof. intros E. unfold bind. by rewrite E. Qed.

Lemma obj_same_heap w w' r : heap w' = heap w -> obj w' r = obj w r.
Proof. unfold obj. by intros ->. Qed.

(** One [if key not in d: d[key] = ...] step. *)
Lemma fill_grown r key mk w :
  quiet mk ->
  exists w', fill r key mk env w = (inr tt, w')
    /\ grown [key] r w w'
    /\ is_Some (obj w' r !! key)
    /\ (is_Some (obj w r !! key) -> w' = w).
Proof.
  intros Q. rewrite fill_run.
  destruct (contains (obj w r) key) eqn:C.
  - exists w. apply contains_true in C. auto using grown_refl.
  - apply contains_false in C.
    destruct (Q env w) as (v & w1 & E & Hh & Hs).
    exists (snd (setitem r key v env w1)).
    split; [by rewrite (bind_ok _ _ _ _ _ E)|].
    pose proof (obj_same_heap w w1 r Hh) as Er.
    split; [|split].
    + repeat split.
      * simpl. exact Hs.
      * rewrite obj_setitem, Er. by apply insert_subseteq.
      * intros r' Hr. rewrite obj_setitem_ne by done.
        by apply obj_same_heap.
      * intros k Hk. rewrite obj_setitem, Er.
        apply lookup_insert_ne. intros ->. apply Hk. by left.
    + rewrite obj_setitem, lookup_insert_eq. eauto.
    + rewrite C. by intros [? ?].
Qed.

(** The identifier [_generate_id] builds: the prefix, the clock reading in
    milliseconds and nine picks from the alphabet. *)
Lemma random_choices_run pop k w :
  exists picks w',
    random_choices pop k env w = (inr picks, w')
    /\ List.length picks = k
    /\ (pop ≠ [] -> Forall (fun c => c ∈ pop) picks)
    /\ heap w' = heap w /\ sent w' = sent w /\ ticks w' = ticks w.
Proof.
  revert w. induction k as [|k IH]; intros w; simpl.
  - exists [], w. repeat split; auto.
  - set (w1 := snd (next_draw env w)).
    destruct (IH w1) as (picks & w' & E & L & P & Hh & Hs & Ht).
    eexists _, w'. split.
    + unfold bind at 1. simpl. fold w1.
      rewrite (bind_ok _ _ _ _ _ E). reflexivity.
    + simpl. repeat split; auto.
      intros Hne. constructor; [|auto].
      apply list_elem_of_In, nth_In.
      apply Nat.mod_upper_bound. destruct pop; simpl; [done|lia].
Qed.

Lemma fresh_id_run prefix w :
  exists suffix w',
    fresh_id prefix env w =
      (inr (VStr (prefix ++ "-" ++ pretty (time_ms env (ticks w)) ++ "-"
                  ++ string_of_list_ascii suffix)), w')
    /\ List.length suffix = 9%nat
    /\ Forall (fun c => c ∈ alphabet) suffix
    /\ heap w' = heap w /\ sent w' = sent w.
Proof.
  set (w1 := snd (read_time_ms env w)).
  destruct (random_choices_run alphabet 9 w1) as (picks & w' & E & L & P & Hh & Hs & _).
  exists picks, w'. split.
  - assert (G : _generate_id prefix env w =
               (inr (prefix ++ "-" ++ pretty (time_ms env (ticks w)) ++ "-"
                     ++ string_of_list_ascii picks), w')).
    { unfold _generate_id.
      rewrite (bind_ok read_time_ms _ w (time_ms env (ticks w)) w1 eq_refl).
      by rewrite (bind_ok _ _ _ _ _ E). }
    unfold fresh_id. by rewrite (bind_ok _ _ _ _ _ G).
  - split; [exact L|]. split; [apply P; discriminate|].
    split; [exact Hh | exact Hs].
Qed.

End Filling.

Lemma fill_defaults_all op r : fill_defaults op r = fill_all r (defaults_of op).
Proof. destruct op; reflexivity. Qed.

Lemma default_keys_of op : default_keys op = (defaults_of op).*1.
Proof. destruct op; reflexivity. Qed.

Lemma defaults_of_quiet op : Forall (fun p => quiet p.2) (defaults_of op).
Proof.
  destruct op; simpl; repeat constructor; simpl;
    auto using quiet_ret, quiet_fresh_id, quiet_now_value.
Qed.

Lemma defaults_of_head op :
  exists rest, defaults_of op = ("id", fresh_id (prefix_of op)) :: rest.
Proof. destruct op; simpl; eauto. Qed.

Section FillAll.

Context (env : Env).

Lemma fill_all_cons r k mk l w :
  fill_all r ((k, mk) :: l) env w
  = bind (fill r k mk) (fun _ => fill_all r l) env w.
Proof.
  destruct l as [|p l]; [|reflexivity].
  simpl. unfold bind. destruct (fill r k mk env w) as [[e|[]] w']; reflexivity.
Qed.

Lemma fill_all_run r l w :
  Forall (fun p => quiet p.2) l ->
  exists w', fill_all r l env w = (inr tt, w')
    /\ grown (l.*1) r w w'
    /\ Forall (fun k => is_Some (obj w' r !! k)) (l.*1)
    /\ (Forall (fun k => is_Some (obj w r !! k)) (l.*1) -> w' = w).
Proof.
  intros Q. revert w. induction Q as [|[k mk] l Qk Ql IH]; intros w.
  - exists w. simpl. split; [done|]. split; [apply grown_refl|]. split; auto.
  - destruct (fill_grown env r k mk w Qk) as (w1 & E1 & G1 & P1 & N1).
    destruct (IH w1) as (w2 & E2 & G2 & P2 & N2).
    exists w2. rewrite fill_all_cons, (bind_ok env _ _ _ _ _ E1).
    split; [exact E2|]. split; [|split].
    + exact (grown_trans (k :: nil) (l.*1) r w w1 w2 G1 G2).
    + simpl. constructor; [|exact P2].
      destruct P1 as [v Hv]. exists v.
      destruct G2 as (_ & I2 & _). eapply lookup_weaken; eassumption.
    + simpl. intros H. apply Forall_cons in H as [Hk Hl].
      rewrite (N1 Hk) in N2. exact (N2 Hl).
Qed.

End FillAll.

Section Defaults.

Context (env : Env) (op : operation) (r : ref) (w : World).

Lemma fill_defaults_run :
  fill_defaults op r env w = (inr tt, filled op r env w)
  /\ grown (default_keys op) r w (filled op r env w)
  /\ Forall (fun k => is_Some (obj (filled op r env w) r !! k)) (default_keys op)
  /\ (Forall (fun k => is_Some (obj w r !! k)) (default_keys op) ->
      filled op r env w = w).
Proof.
  unfold filled. rewrite fill_defaults_all, default_keys_of.
  destruct (fill_all_run env r (defaults_of op) w (defaults_of_quiet op))
    as (w' & -> & G & P & N).
  simpl. auto.
Qed.

Lemma filled_id_present : is_Some (obj (filled op r env w) r !! "id").
Proof.
  destruct fill_defaults_run as (_ & _ & P & _).
  rewrite default_keys_of in P. destruct (defaults_of_head op) as [rest Hd].
  rewrite Hd in P. by apply Forall_cons in P as [P _].
Qed.

Lemma filled_nonempty : size (obj (filled op r env w) r) ≠ 0%nat.
Proof.
  destruct filled_id_present as [v Hv]. intros Hz.
  apply map_size_empty_iff in Hz. rewrite Hz in Hv. by rewrite lookup_empty in Hv.
Qed.

(** The identifier assigned when the caller gave none. *)
Lemma filled_generated_id :
  obj w r !! "id" = None ->
  exists suffix,
    obj (filled op r env w) r !! "id" =
      Some (VStr (prefix_of op ++ "-" ++ pretty (time_ms env (ticks w)) ++ "-"
                  ++ string_of_list_ascii suffix))
    /\ List.length suffix = 9%nat
    /\ Forall (fun c => c ∈ alphabet) suffix.
Proof.
  intros Hid. unfold filled. rewrite fill_defaults_all.
  destruct (defaults_of_head op) as [rest Hd].
  pose proof (defaults_of_quiet op) as Q. rewrite Hd in *.
  apply Forall_cons in Q as [_ Q].
  rewrite fill_all_cons.
  destruct (fresh_id_run env (prefix_of op) w) as (suffix & w1 & E & L & A & Hh & Hs).
  exists suffix. split; [|done].
  assert (F : fill r "id" (fresh_id (prefix_of op)) env w
              = (inr tt, snd (setitem r "id"
                   (VStr (prefix_of op ++ "-" ++ pretty (time_ms env (ticks w))
                          ++ "-" ++ string_of_list_ascii suffix)) env w1))).
  { rewrite fill_run. apply contains_false in Hid. rewrite Hid.
    by rewrite (bind_ok env _ _ _ _ _ E). }
  rewrite (bind_ok env _ _ _ _ _ F).
  set (w1' := snd (setitem r "id" _ env w1)).
  destruct (fill_all_run env r rest w1' Q) as (w2 & -> & (_ & I & _) & _).
  simpl. eapply lookup_weaken; [|exact I].
  subst w1'. by rewrite obj_setitem, lookup_insert_eq.
Qed.

End Defaults.

(** ** What a request and an operation do *)

Section Requests.

Context (env : Env) (self : OHAPClient).

(** A POST without body: one request, no content. *)
Lemma request_post_none path w :
  let rq := mkRequest "POST" (base_url self ++ path) (request_headers self) None in
  _request self "POST" path None env w
  = (answer (server env (sent w) rq), after_send w rq).
Proof.
  unfold _request.
  change (String.eqb (upper "POST") "GET") with false.
  change (String.eqb (upper "POST") "POST") with true.
  cbv beta iota zeta. unfold bind, dumps_body, ret, send, answer, raise, after_send.
  simpl. destruct (server env (sent w) _) as [reason|rs]; [reflexivity|].
  destruct (400 <=? _); [reflexivity|]. destruct (json rs); reflexivity.
Qed.

(** A POST of a non-empty object: one request carrying the object as it
    is when the request is made. *)
Lemma request_post_some path r w :
  size (obj w r) ≠ 0%nat ->
  let rq := mkRequest "POST" (base_url self ++ path) (request_headers self)
                      (Some (VDict (obj w r))) in
  _request self "POST" path (Some r) env w
  = (answer (server env (sent w) rq), after_send w rq).
Proof.
  intros Hne. unfold _request.
  change (String.eqb (upper "POST") "GET") with false.
  change (String.eqb (upper "POST") "POST") with true.
  cbv beta iota zeta.
  unfold dumps_body, truthy. unfold bind, load, ret, send, answer, raise, after_send.
  apply Nat.eqb_neq in Hne. rewrite Hne. simpl.
  destruct (server env (sent w) _) as [reason|rs]; [reflexivity|].
  destruct (400 <=? _); [reflexivity|]. destruct (json rs); reflexivity.
Qed.

Lemma call_validator_run v r w :
  call_validator v r env w =
    match v (obj w r) with
    | inl e => (inl e, w)
    | inr _ => (inr tt, w)
    end.
Proof.
  unfold call_validator, bind, load, raise, ret.
  destruct (v (obj w r)); reflexivity.
Qed.

Lemma run_operation_split op r w :
  run_operation op self r env w =
    bind (fill_defaults op r)
      (fun _ => bind (when (validate_schemas self)
                        (call_validator (validator_of op) r))
        (fun _ => _request self "POST" (path_of op) (Some r))) env w.
Proof.
  destruct op; simpl;
    unfold create_task, submit_proposal, submit_deliverable, submit_review;
    unfold bind;
    repeat (match goal with
            | |- context [fill ?r' ?k ?m env ?w'] =>
                destruct (fill r' k m env w') as [[?|[]] ?]
            end; try reflexivity).
Qed.

(** An operation fills the defaults in, validates when the client was
    built to, and only then posts the object. *)
Lemma run_operation_run op r w :
  let w1 := filled op r env w in
  run_operation op self r env w =
    match (if validate_schemas self then validator_of op (obj w1 r)
           else Validator.passed) with
    | inl e => (inl e, w1)
    | inr _ =>
        (answer (server env (sent w1) (post_of op self (obj w1 r))),
         after_send w1 (post_of op self (obj w1 r)))
    end.
Proof.
  intros w1. rewrite run_operation_split.
  destruct (fill_defaults_run env op r w) as (E & _).
  fold w1 in E. rewrite (bind_ok env _ _ _ _ _ E).
  pose proof (request_post_some (path_of op) r w1 (filled_nonempty env op r w)) as R.
  cbv zeta in R. unfold post_of.
  destruct (validate_schemas self); simpl.
  - unfold bind at 1. rewrite call_validator_run.
    destruct (validator_of op (obj w1 r)) as [e|[]]; [reflexivity|exact R].
  - unfold bind, ret. exact R.
Qed.

End Requests.

(** ** Properties of the validator *)

Module ValidatorProps.

Import Validator Samples Statements.



(** C2 (as the code behaves): the validators return no list.  On the task,
    the deliverable and the review that the test suite passes to them they
    raise a ValueError, and on a task that breaks two rules the error names
    only the first of them. *)
Theorem validators_raise_first_error :
  validate_task test_task = raise (ValueError "Task must have a valid id")
  /\ validate_deliverable test_deliverable
     = raise (ValueError "Deliverable must have a valid id")
  /\ validate_review test_review = raise (ValueError "Review must have a valid id")
  /\ validate_task twice_wrong_task
     = raise (ValueError "Task title must be at least 3 characters").
Proof. repeat split; vm_compute; reflexivity. Qed.


(** C5, refuted as stated: a review whose decision is "maybe", which is no
    member of the closed set, passes validation. *)
Lemma unknown_decision_accepted :
  odd_review !! "decision" = Some (VStr "maybe")
  /\ ("maybe" ∉ ReviewDecision)
  /\ validate_review odd_review = passed.
Proof.
  split; [reflexivity|]. split; [|vm_compute; reflexivity].
  unfold ReviewDecision. rewrite !elem_of_cons, elem_of_nil.
  intros [H|[H|[H|[H|[]]]]]; discriminate H.
Qed.

(** C5, as the code has it: validation rejects every review whose decision
    is absent or is a false value (None, the empty string, ...); a review
    passes exactly when its id is a non-empty string, its deliverable
    reference is a true value, its reviewer is a dict with a true id and
    its decision is a true value, member of the closed set or not. *)
Theorem review_decision_only_checked_for_presence (review : gmap string value) :
  (truthy (get review "decision") = false -> exists e, validate_review review = raise e)
  /\ (validate_review review = passed <->
      bad_id review = false
      /\ truthy (get review "deliverable_id") = true
      /\ bad_actor (get review "reviewer") = false
      /\ truthy (get review "decision") = true).
Proof.
  unfold validate_review, passed, raise.
  destruct (bad_id review), (truthy (get review "deliverable_id")),
    (bad_actor (get review "reviewer")), (truthy (get review "decision"));
    simpl; (split; [eauto; try discriminate|]);
    (split; [try discriminate; auto|intros (? & ? & ? & ?); try discriminate; auto]).
Qed.

Lemma review_decision_only_checked_for_presence_witness :
  (truthy (get test_review "decision") = false ->
     exists e, validate_review test_review = raise e)
  /\ (validate_review odd_review = passed <->
      bad_id odd_review = false
      /\ truthy (get odd_review "deliverable_id") = true
      /\ bad_actor (get odd_review "reviewer") = false
      /\ truthy (get odd_review "decision") = true).
Proof.
  split.
  - apply (review_decision_only_checked_for_presence test_review).
  - apply (review_decision_only_checked_for_presence odd_review).
Defined.



End ValidatorProps.

(** ** Properties of the client *)

Module ClientProps.

Import Validator Samples Statements.

(** C1, refuted as stated: accepting a proposal whose status is "rejected"
    is not refused locally; the request goes out and the call returns what
    the server answered. *)
Lemma accept_rejected_proposal_not_refused :
  let w := world_with rejected_proposal in
  rejected_proposal !! "status" = Some (VStr "rejected")
  /\ fst (accept_proposal strict_client "prop-1" env0 w) = inr contract
  /\ map url (sent (snd (accept_proposal strict_client "prop-1" env0 w)))
     = ["http://localhost:3000/proposals/prop-1/accept"]
  /\ ~ refused_locally strict_client env0 w rejected_proposal.
Proof.
  split; [reflexivity|]. split; [vm_compute; reflexivity|].
  split; [vm_compute; reflexivity|]. intros H.
  destruct (H "prop-1" eq_refl) as [e He].
  unfold accept_proposal in He. rewrite request_post_none in He.
  apply (f_equal (fun x => List.length (sent (snd x)))) in He.
  simpl in He. discriminate He.
Qed.

(** C1, as the code has it: [accept_proposal] looks at no status and raises
    no transition error.  For every proposal id it issues exactly one POST
    to [/proposals/<id>/accept], without body, and its outcome is what
    comes of that request: the transport error when httpx gets no answer,
    the API error when the answer's status is 400 or more, the decode
    error when the answer's body is not JSON, and the decoded answer
    otherwise.  No object of the caller is changed. *)
Theorem accept_proposal_delegates_to_server
    (self : OHAPClient) (pid : string) (env : Env) (w : World) :
  let rq := mkRequest "POST" (base_url self ++ "/proposals/" ++ pid ++ "/accept")
                      (request_headers self) None in
  let out := accept_proposal self pid env w in
  out = (answer (server env (sent w) rq), after_send w rq)
  /\ sent (snd out) = (sent w ++ [rq])%list
  /\ heap (snd out) = heap w
  /\ match server env (sent w) rq with
     | NoAnswer reason => fst out = inl (TransportError reason)
     | Answered rs =>
         if 400 <=? status_code rs then
           fst out = inl (Exception ("OHAP API error: "
                          ++ pretty (status_code rs) ++ " " ++ text rs))
         else
           match json rs with
           | inl msg => fst out = inl (JSONDecodeError msg)
           | inr data => fst out = inr data
           end
     end.
Proof.
  intros rq out. subst out. unfold accept_proposal. rewrite request_post_none.
  fold rq. repeat split. unfold answer. simpl.
  destruct (server env (sent w) rq) as [reason|rs]; [reflexivity|].
  destruct (400 <=? status_code rs); [reflexivity|].
  destruct (json rs); reflexivity.
Qed.

(** C3, refuted as stated: a client built with [validate_schemas=False]
    posts a task whose title is empty, although the task fails
    [validate_task]. *)
Lemma unvalidated_task_reaches_server :
  let w' := snd (create_task lax_client 0%nat env0 (world_with untitled_task)) in
  validate_task (obj w' 0%nat)
    = Validator.raise (ValueError "Task title must be at least 3 characters")
  /\ sent w' = [post_of CreateTask lax_client (obj w' 0%nat)]
  /\ get (obj w' 0%nat) "title" = VStr "".
Proof. vm_compute. repeat split. Qed.

(** C3, as the code has it: with a client that validates (the default), an
    operation whose default-filled candidate fails validation raises that
    error and issues no request; a request goes out only for a candidate
    that passed, and it carries that candidate. *)
Theorem validation_precedes_network
    (op : operation) (self : OHAPClient) (r : ref) (env : Env) (w : World) :
  validate_schemas self = true ->
  let w1 := filled op r env w in
  match validator_of op (obj w1 r) with
  | inl e => run_operation op self r env w = (inl e, w1) /\ sent w1 = sent w
  | inr _ =>
      sent (snd (run_operation op self r env w))
      = (sent w ++ [post_of op self (obj w1 r)])%list
  end.
Proof.
  intros Hv w1. rewrite (run_operation_run env self op r w). fold w1. rewrite Hv.
  destruct (fill_defaults_run env op r w) as (_ & (Hs & _) & _). fold w1 in Hs.
  destruct (validator_of op (obj w1 r)) as [e|[]].
  - split; [reflexivity|exact Hs].
  - simpl. by rewrite Hs.
Qed.

Lemma validation_precedes_network_witness :
  let w1 := filled CreateTask 0%nat env0 (world_with untitled_task) in
  match validator_of CreateTask (obj w1 0%nat) with
  | inl e =>
      run_operation CreateTask strict_client 0%nat env0 (world_with untitled_task)
      = (inl e, w1)
      /\ sent w1 = sent (world_with untitled_task)
  | inr _ =>
      sent (snd (run_operation CreateTask strict_client 0%nat env0
                   (world_with untitled_task)))
      = (sent (world_with untitled_task)
         ++ [post_of CreateTask strict_client (obj w1 0%nat)])%list
  end.
Proof.
  apply (validation_precedes_network CreateTask strict_client 0%nat env0
           (world_with untitled_task)).
  reflexivity.
Defined.

(** The objects after an operation are those its default filling left. *)
Lemma run_operation_heap op self r env w :
  heap (snd (run_operation op self r env w)) = heap (filled op r env w).
Proof.
  rewrite (run_operation_run env self op r w).
  destruct (if validate_schemas self then _ else _) as [e|[]]; reflexivity.
Qed.

Lemma run_operation_obj op self r env w r' :
  obj (snd (run_operation op self r env w)) r' = obj (filled op r env w) r'.
Proof. unfold obj. by rewrite run_operation_heap. Qed.

(** C6, refuted as stated: after [create_task] the caller's own dict, which
    had no id, holds the generated one. *)
Lemma create_task_mutates_candidate :
  let w := world_with logo_task in
  let w' := snd (run_operation CreateTask strict_client 0%nat env0 w) in
  obj w 0%nat !! "id" = None
  /\ obj w' 0%nat !! "id" = Some (VStr "task-1700000000123-dkry5cjqx")
  /\ ~ leaves_candidate_unmodified CreateTask strict_client 0%nat env0 w.
Proof.
  split; [reflexivity|]. split; [vm_compute; reflexivity|].
  unfold leaves_candidate_unmodified. intros H.
  apply (f_equal (fun d : gmap string value => d !! "id")) in H.
  vm_compute in H. discriminate H.
Qed.

(** C6, as the code has it: an operation fills the defaults into the
    caller's own dict.  After the call, raised or returned, that dict has
    every entry it had, has each default key of the operation, differs
    from before only under default keys that were missing, and is
    unchanged when none was missing; no other object is touched. *)
Theorem operation_fills_candidate_in_place
    (op : operation) (self : OHAPClient) (r : ref) (env : Env) (w : World) :
  let w' := snd (run_operation op self r env w) in
  obj w r ⊆ obj w' r
  /\ Forall (fun k => is_Some (obj w' r !! k)) (default_keys op)
  /\ (forall k, k ∉ default_keys op -> obj w' r !! k = obj w r !! k)
  /\ (forall r', r' ≠ r -> obj w' r' = obj w r')
  /\ (Forall (fun k => is_Some (obj w r !! k)) (default_keys op) ->
      obj w' r = obj w r).
Proof.
  intros w'. subst w'.
  destruct (fill_defaults_run env op r w) as (_ & (_ & I & O & F) & P & N).
  rewrite run_operation_obj. repeat split; auto.
  - intros r' Hr. rewrite run_operation_obj. auto.
  - intros H. by rewrite (N H).
Qed.

Lemma operation_fills_candidate_in_place_witness :
  let w := world_with logo_task in
  let w' := snd (run_operation CreateTask strict_client 0%nat env0 w) in
  obj w 0%nat ⊆ obj w' 0%nat
  /\ Forall (fun k => is_Some (obj w' 0%nat !! k)) (default_keys CreateTask)
  /\ (forall k, k ∉ default_keys CreateTask -> obj w' 0%nat !! k = obj w 0%nat !! k)
  /\ (forall r', r' ≠ 0%nat -> obj w' r' = obj w r')
  /\ (Forall (fun k => is_Some (obj w 0%nat !! k)) (default_keys CreateTask) ->
      obj w' 0%nat = obj w 0%nat).
Proof.
  exact (operation_fills_candidate_in_place CreateTask strict_client 0%nat env0
           (world_with logo_task)).
Defined.

(** C7: when the caller's candidate has no [id] key, the operation assigns
    one of the form prefix, "-", the clock reading in milliseconds in
    decimal, "-", nine characters drawn from the lowercase letters and the
    digits; the prefix is task, prop, deliv or rev by kind. *)
Theorem generated_id_pattern
    (op : operation) (self : OHAPClient) (r : ref) (env : Env) (w : World) :
  obj w r !! "id" = None ->
  exists suffix : list ascii,
    obj (snd (run_operation op self r env w)) r !! "id"
    = Some (VStr (prefix_of op ++ "-" ++ pretty (time_ms env (ticks w)) ++ "-"
                  ++ string_of_list_ascii suffix))
    /\ List.length suffix = 9%nat
    /\ Forall (fun c => c ∈ alphabet) suffix.
Proof.
  intros Hid. rewrite run_operation_obj.
  by apply filled_generated_id.
Qed.

Lemma generated_id_pattern_witness :
  exists suffix : list ascii,
    obj (snd (run_operation SubmitDeliverable strict_client 0%nat env0
                (world_with test_deliverable))) 0%nat !! "id"
    = Some (VStr (prefix_of SubmitDeliverable ++ "-"
                  ++ pretty (time_ms env0 (ticks (world_with test_deliverable)))
                  ++ "-" ++ string_of_list_ascii suffix))
    /\ List.length suffix = 9%nat
    /\ Forall (fun c => c ∈ alphabet) suffix.
Proof.
  apply (generated_id_pattern SubmitDeliverable strict_client 0%nat env0
           (world_with test_deliverable)).
  reflexivity.
Defined.

(** The prefixes, and a generated identifier in full. *)
Example generated_id_sample :
  map prefix_of [CreateTask; SubmitProposal; SubmitDeliverable; SubmitReview]
  = ["task"; "prop"; "deliv"; "rev"]
  /\ fst (_generate_id "deliv" env0 (world_with test_deliverable))
     = inr "deliv-1700000000123-dkry5cjqx".
Proof. split; vm_compute; reflexivity. Qed.

(** Run statement by statement on a reference, a validator does what its
    reading as a function of the dict says, and leaves the world alone. *)
Lemma validate_at_run (op : operation) (r : ref) (env : Env) (w : World) :
  validate_at op r env w = call_validator (validator_of op) r env w.
Proof.
  rewrite call_validator_run.
  destruct op; simpl;
    unfold Stepwise.validate_task, Stepwise.validate_proposal,
      Stepwise.validate_deliverable, Stepwise.validate_review,
      validate_task, validate_proposal, validate_deliverable, validate_review,
      Stepwise.bad_id_at, Stepwise.short_text_at, Stepwise.missing_at,
      Stepwise.get_at, Stepwise.get_default_at, Stepwise.or_else,
      Stepwise.and_then, bad_id, bad_text, bind, load, ret, Client.raise,
      raise, passed; simpl.
  - destruct (is_str (get (obj w r) "id")); simpl; [|reflexivity].
    destruct (truthy (get (obj w r) "id")); simpl; [|reflexivity].
    destruct (is_str (get (obj w r) "title")); simpl; [|reflexivity].
    destruct (get_default (obj w r) "title" (VStr "")); simpl; try reflexivity.
    destruct (_ <? 3)%nat; simpl; [reflexivity|].
    destruct (is_str (get (obj w r) "objective")); simpl; [|reflexivity].
    destruct (get_default (obj w r) "objective" (VStr "")); simpl; try reflexivity.
    destruct (_ <? 10)%nat; simpl; [reflexivity|].
    destruct (bad_actor _); reflexivity.
  - destruct (is_str (get (obj w r) "id")); simpl; [|reflexivity].
    destruct (truthy (get (obj w r) "id")); simpl; [|reflexivity].
    destruct (truthy (get (obj w r) "task_id")); simpl;
      [|destruct (truthy (get (obj w r) "taskId")); simpl; [|reflexivity]];
      (destruct (bad_actor _); [reflexivity|]);
      (destruct (get_default (obj w r) "approach" (VStr "")); simpl;
        try reflexivity);
      (destruct (_ <? 20)%nat; simpl; [reflexivity|]);
      (destruct (get (obj w r) "timeline"); simpl; try reflexivity);
      destruct (truthy _); reflexivity.
  - destruct (is_str (get (obj w r) "id")); simpl; [|reflexivity].
    destruct (truthy (get (obj w r) "id")); simpl; [|reflexivity].
    destruct (truthy (get (obj w r) "task_id")); simpl; [|reflexivity].
    destruct (truthy (get (obj w r) "contract_id")); simpl; [|reflexivity].
    destruct (bad_actor _); [reflexivity|].
    destruct (bad_list (get_default (obj w r) "artifacts" (VList []))); [reflexivity|].
    destruct (get (obj w r) "evidence"); simpl; try reflexivity.
    destruct (bad_list _); reflexivity.
  - destruct (is_str (get (obj w r) "id")); simpl; [|reflexivity].
    destruct (truthy (get (obj w r) "id")); simpl; [|reflexivity].
    destruct (truthy (get (obj w r) "deliverable_id")); simpl; [|reflexivity].
    destruct (bad_actor _); [reflexivity|].
    destruct (truthy (get (obj w r) "decision")); reflexivity.
Qed.

(** C8: the validators of validator.py, run statement by statement on a
    reference in a world with a clock, a generator, a network and
    writable objects, read nothing but the candidate and change nothing.
    Two candidates with the same content get the same outcome, whatever
    the clock, the generator, the server and the rest of the world are;
    the world is as before afterwards, so a second validation of the same
    candidate gives the outcome of the first. *)
Theorem validation_deterministic
    (op : operation) (r r' : ref) (env env' : Env) (w w' : World) :
  obj w r = obj w' r' ->
  fst (validate_at op r env w) = fst (validate_at op r' env' w')
  /\ snd (validate_at op r env w) = w
  /\ validate_at op r env' (snd (validate_at op r env w))
     = validate_at op r env w.
Proof.
  intros Hd. rewrite !validate_at_run.
  rewrite (call_validator_run env' (validator_of op) r' w'), <- Hd.
  rewrite (call_validator_run env (validator_of op) r w).
  destruct (validator_of op (obj w r)) as [e|[]] eqn:E; simpl;
    rewrite call_validator_run, E; auto.
Qed.

Lemma validation_deterministic_witness :
  let v := validate_at CreateTask in
  fst (v 0%nat env0 (world_with twice_wrong_task))
  = fst (v 1%nat env1 (later_world_with twice_wrong_task))
  /\ snd (v 0%nat env0 (world_with twice_wrong_task)) = world_with twice_wrong_task
  /\ v 0%nat env1 (snd (v 0%nat env0 (world_with twice_wrong_task)))
     = v 0%nat env0 (world_with twice_wrong_task).
Proof.
  apply (validation_deterministic CreateTask 0%nat 1%nat env0 env1
           (world_with twice_wrong_task) (later_world_with twice_wrong_task)).
  reflexivity.
Defined.

(** A client built by [__init__] keeps the flag it was given. *)
Lemma init_validate_schemas httpx url key flag self :
  __init__ httpx url key flag = inr self -> validate_schemas self = flag.
Proof.
  unfold __init__. destruct (negb httpx); [discriminate|].
  intros E. injection E as <-. reflexivity.
Qed.

(** C10: with a client constructed with [validate_schemas=False] an
    operation validates nothing.  Whatever the candidate, it issues exactly
    one request, the POST of the candidate with its defaults filled in, and
    its outcome is the server's, never a validation error; every entry
    the caller supplied is in the posted object as it was, and a
    candidate that had all the default keys is posted as it was. *)
Theorem validation_skipped_when_disabled
    (url : string) (key : option string) (self : OHAPClient)
    (op : operation) (r : ref) (env : Env) (w : World) :
  __init__ true url key false = inr self ->
  let w1 := filled op r env w in
  let rq := post_of op self (obj w1 r) in
  run_operation op self r env w
  = (answer (server env (sent w) rq), after_send w1 rq)
  /\ sent (snd (run_operation op self r env w)) = (sent w ++ [rq])%list
  /\ obj w r ⊆ obj w1 r
  /\ (Forall (fun k => is_Some (obj w r !! k)) (default_keys op) ->
      obj w1 r = obj w r).
Proof.
  intros Hinit w1 rq. apply init_validate_schemas in Hinit as Hv.
  rewrite (run_operation_run env self op r w). fold w1 rq.
  rewrite Hv.
  destruct (fill_defaults_run env op r w) as (_ & (Hs & I & _) & _ & N).
  fold w1 in Hs, I, N. simpl. rewrite Hs.
  repeat split; auto. intros H. by rewrite (N H).
Qed.

Lemma validation_skipped_when_disabled_witness :
  let w := world_with untitled_task in
  let w1 := filled CreateTask 0%nat env0 w in
  let rq := post_of CreateTask lax_client (obj w1 0%nat) in
  run_operation CreateTask lax_client 0%nat env0 w
  = (answer (server env0 (sent w) rq), after_send w1 rq)
  /\ sent (snd (run_operation CreateTask lax_client 0%nat env0 w))
     = (sent w ++ [rq])%list
  /\ obj w 0%nat ⊆ obj w1 0%nat
  /\ (Forall (fun k => is_Some (obj w 0%nat !! k)) (default_keys CreateTask) ->
      obj w1 0%nat = obj w 0%nat).
Proof.
  apply (validation_skipped_when_disabled "http://localhost:3000/" None
           lax_client CreateTask 0%nat env0 (world_with untitled_task)).
  reflexivity.
Defined.

(** The request that goes out for the task without a title. *)
Example untitled_task_posted :
  let w' := snd (create_task lax_client 0%nat env0 (world_with untitled_task)) in
  map url (sent w') = ["http://localhost:3000/tasks"]
  /\ map (fun rq => match content rq with
                    | Some (VDict d) => d !! "title"
                    | _ => None
                    end) (sent w') = [Some (VStr "")].
Proof. vm_compute. split; reflexivity. Qed.

End ClientProps.

(** ** More on the validators *)

Module ValidatorFacts.

Import Validator Shapes.

Lemma bad_id_false (d : gmap string value) :
  bad_id d = false <-> nonempty_str (d !! "id").
Proof.
  unfold bad_id, get, nonempty_str.
  destruct (d !! "id") as [[| | |s| |]|]; simpl;
    try (split; [discriminate|intros (s' & E & _); discriminate E]).
  destruct s as [|c s]; simpl.
  - split; [discriminate|]. intros (s' & E & N). by injection E as <-.
  - split; [|reflexivity]. intros _. eexists. split; [reflexivity|discriminate].
Qed.

Lemma bad_actor_false (d : gmap string value) k :
  bad_actor (get d k) = false <-> actor_with_id (d !! k).
Proof.
  unfold get, actor_with_id.
  destruct (d !! k) as [[| | | | |a]|]; simpl;
    try (split; [discriminate|intros (a' & E & _); discriminate E]).
  rewrite negb_false_iff. split.
  - intros H. by exists a.
  - intros (a' & E & H). by injection E as <-.
Qed.

Lemma bad_text_false (d : gmap string value) k n :
  (0 < n)%nat ->
  bad_text (get_default d k (VStr "")) n = false <-> str_at_least n (d !! k).
Proof.
  intros Hn. unfold get_default, str_at_least.
  destruct (d !! k) as [[| | |s| |]|]; simpl;
    try (split; [discriminate|intros (s' & E & _); discriminate E]).
  - rewrite Nat.ltb_ge. split.
    + intros H. by exists s.
    + intros (s' & E & H). by injection E as <-.
  - split; [|intros (s' & E & _); discriminate E].
    intros H. apply Nat.ltb_ge in H. simpl in H. lia.
Qed.

Lemma task_text_false (d : gmap string value) k n :
  negb (is_str (get d k))
  || match get_default d k (VStr "") with
     | VStr s => (String.length s <? n)%nat
     | _ => true
     end = false
  <-> str_at_least n (d !! k).
Proof.
  unfold get, get_default, str_at_least.
  destruct (d !! k) as [[| | |s| |]|]; simpl;
    try (split; [discriminate|intros (s' & E & _); discriminate E]).
  rewrite Nat.ltb_ge. split.
  - intros H. by exists s.
  - intros (s' & E & H). by injection E as <-.
Qed.

Lemma bad_list_false (d : gmap string value) k :
  bad_list (get_default d k (VList [])) = false <-> nonempty_list (d !! k).
Proof.
  unfold get_default, nonempty_list.
  destruct (d !! k) as [[| | | |xs|]|]; simpl;
    try (split; [discriminate|intros (x & xs' & E); discriminate E]).
  destruct xs as [|x xs]; simpl.
  - split; [discriminate|intros (x & xs' & E); discriminate E].
  - split; [eauto|reflexivity].
Qed.

Lemma truthy_get_true (d : gmap string value) k :
  truthy (get d k) = true <-> present (d !! k).
Proof.
  unfold get, present. destruct (d !! k) as [v|]; simpl.
  - split; [eauto|]. intros (v' & E & H). by injection E as <-.
  - split; [discriminate|intros (v' & E & _); discriminate E].
Qed.

(** X1: A task passes exactly when its id is a non-empty string, its title a
    string of at least 3 characters, its objective a string of at least
    10 characters and its initiator a dict with a true id. *)
Theorem validate_task_passes_iff (task : gmap string value) :
  validate_task task = passed
  <-> nonempty_str (task !! "id")
      /\ str_at_least 3 (task !! "title")
      /\ str_at_least 10 (task !! "objective")
      /\ actor_with_id (task !! "initiator").
Proof.
  rewrite <- bad_id_false, <- (task_text_false task "title" 3),
    <- (task_text_false task "objective" 10), <- bad_actor_false.
  unfold validate_task, passed, raise.
  destruct (bad_id task); [split; [discriminate|intros (? & _); discriminate]|].
  destruct (negb (is_str (get task "title")) || _);
    [split; [discriminate|intros (_ & ? & _); discriminate]|].
  destruct (negb (is_str (get task "objective")) || _);
    [split; [discriminate|intros (_ & _ & ? & _); discriminate]|].
  destruct (bad_actor _);
    [split; [discriminate|intros (_ & _ & _ & ?); discriminate]|].
  split; auto.
Qed.

(** X2: A proposal passes exactly when its id is a non-empty string, one of
    [task_id] and [taskId] holds a true value, its proposer is a dict with
    a true id, its approach a string of at least 20 characters and its
    timeline a dict with a true [estimated_completion]. *)
Theorem validate_proposal_passes_iff (proposal : gmap string value) :
  validate_proposal proposal = passed
  <-> nonempty_str (proposal !! "id")
      /\ (present (proposal !! "task_id") \/ present (proposal !! "taskId"))
      /\ actor_with_id (proposal !! "proposer")
      /\ str_at_least 20 (proposal !! "approach")
      /\ (exists tl, proposal !! "timeline" = Some (VDict tl)
                     /\ present (tl !! "estimated_completion")).
Proof.
  rewrite <- bad_id_false, <- !truthy_get_true, <- bad_actor_false,
    <- (bad_text_false proposal "approach" 20) by lia.
  unfold validate_proposal, passed, raise.
  destruct (bad_id proposal); [split; [discriminate|intros (? & _); discriminate]|].
  destruct (truthy (get proposal "task_id")), (truthy (get proposal "taskId")); simpl;
    try (split; [discriminate|intros (_ & [?|?] & _); discriminate]);
    (destruct (bad_actor _);
      [split; [discriminate|intros (_ & _ & ? & _); discriminate]|]);
    (destruct (bad_text _ _);
      [split; [discriminate|intros (_ & _ & _ & ? & _); discriminate]|]);
    unfold get at 1;
    (destruct (proposal !! "timeline") as [[| | | | |tl]|]; simpl;
      try (split; [discriminate|intros (_ & _ & _ & _ & tl' & E & _); discriminate E]));
    (destruct (truthy (get tl "estimated_completion")) eqn:T; simpl;
      [split; [intros _|reflexivity];
       (split; [reflexivity|]); (split; [auto|]);
       (split; [reflexivity|]); (split; [reflexivity|]);
       exists tl; split; [reflexivity|]; by apply truthy_get_true
      |split; [discriminate|];
       intros (_ & _ & _ & _ & tl' & E & P); injection E as <-;
       apply truthy_get_true in P; congruence]).
Qed.

(** X3: A deliverable passes exactly when its id is a non-empty string, its
    task and contract references hold true values, its submitter is a dict
    with a true id, its artifacts a non-empty list and its evidence a dict
    whose items are a non-empty list. *)
Theorem validate_deliverable_passes_iff (deliverable : gmap string value) :
  validate_deliverable deliverable = passed
  <-> nonempty_str (deliverable !! "id")
      /\ present (deliverable !! "task_id")
      /\ present (deliverable !! "contract_id")
      /\ actor_with_id (deliverable !! "submitter")
      /\ nonempty_list (deliverable !! "artifacts")
      /\ (exists ev, deliverable !! "evidence" = Some (VDict ev)
                     /\ nonempty_list (ev !! "items")).
Proof.
  rewrite <- bad_id_false, <- !truthy_get_true, <- bad_actor_false,
    <- bad_list_false.
  unfold validate_deliverable, passed, raise.
  destruct (bad_id deliverable); [split; [discriminate|intros (? & _); discriminate]|].
  destruct (truthy (get deliverable "task_id")); simpl;
    [|split; [discriminate|intros (_ & ? & _); discriminate]].
  destruct (truthy (get deliverable "contract_id")); simpl;
    [|split; [discriminate|intros (_ & _ & ? & _); discriminate]].
  destruct (bad_actor _);
    [split; [discriminate|intros (_ & _ & _ & ? & _); discriminate]|].
  destruct (bad_list _);
    [split; [discriminate|intros (_ & _ & _ & _ & ? & _); discriminate]|].
  unfold get at 1.
  destruct (deliverable !! "evidence") as [[| | | | |ev]|]; simpl;
    try (split; [discriminate|intros (_ & _ & _ & _ & _ & ev' & E & _); discriminate E]).
  destruct (bad_list (get_default ev "items" (VList []))) eqn:B.
  - split; [discriminate|].
    intros (_ & _ & _ & _ & _ & ev' & E & P). injection E as <-.
    apply bad_list_false in P. congruence.
  - split; [intros _|reflexivity]. repeat (split; [reflexivity|]).
    exists ev. split; [reflexivity|]. by apply bad_list_false.
Qed.

Lemma agree_on_read_keys (op : operation) (d1 d2 : gmap string value) :
  (forall k, k ∈ read_keys op -> d1 !! k = d2 !! k) ->
  validator_of op d1 = validator_of op d2.
Proof.
  intros H.
  assert (E : forall k, k ∈ read_keys op ->
            get d1 k = get d2 k
            /\ forall dflt, get_default d1 k dflt = get_default d2 k dflt).
  { intros k Hk. unfold get, get_default. by rewrite (H k Hk). }
  destruct op; simpl in *.
  - pose proof (E "id" ltac:(repeat constructor)) as [Ei _].
    pose proof (E "title" ltac:(repeat constructor)) as [Et Et'].
    pose proof (E "objective" ltac:(repeat constructor)) as [Eo Eo'].
    pose proof (E "initiator" ltac:(repeat constructor)) as [En _].
    unfold validate_task, bad_id. by rewrite Ei, Et, Et', Eo, Eo', En.
  - pose proof (E "id" ltac:(repeat constructor)) as [Ei _].
    pose proof (E "task_id" ltac:(repeat constructor)) as [Et _].
    pose proof (E "taskId" ltac:(repeat constructor)) as [Ec _].
    pose proof (E "proposer" ltac:(repeat constructor)) as [Ep _].
    pose proof (E "approach" ltac:(repeat constructor)) as [_ Ea].
    pose proof (E "timeline" ltac:(repeat constructor)) as [El _].
    unfold validate_proposal, bad_id. by rewrite Ei, Et, Ec, Ep, Ea, El.
  - pose proof (E "id" ltac:(repeat constructor)) as [Ei _].
    pose proof (E "task_id" ltac:(repeat constructor)) as [Et _].
    pose proof (E "contract_id" ltac:(repeat constructor)) as [Ec _].
    pose proof (E "submitter" ltac:(repeat constructor)) as [Es _].
    pose proof (E "artifacts" ltac:(repeat constructor)) as [_ Ea].
    pose proof (E "evidence" ltac:(repeat constructor)) as [Ee _].
    unfold validate_deliverable, bad_id. by rewrite Ei, Et, Ec, Es, Ea, Ee.
  - pose proof (E "id" ltac:(repeat constructor)) as [Ei _].
    pose proof (E "deliverable_id" ltac:(repeat constructor)) as [Ed _].
    pose proof (E "reviewer" ltac:(repeat constructor)) as [Er _].
    pose proof (E "decision" ltac:(repeat constructor)) as [Ec _].
    unfold validate_review, bad_id. by rewrite Ei, Ed, Er, Ec.
Qed.

(** X4: A validator looks at nothing but its own keys: two candidates that
    agree on them get the same outcome, whatever else they hold. *)
Theorem validators_read_only_their_keys
    (op : operation) (d1 d2 : gmap string value) :
  (forall k, k ∈ read_keys op -> d1 !! k = d2 !! k) ->
  validator_of op d1 = validator_of op d2.
Proof. apply agree_on_read_keys. Qed.

Lemma validators_read_only_their_keys_witness :
  validator_of CreateTask Samples.twice_wrong_task
  = validator_of CreateTask
      (<["status" := VStr "no such status"]> Samples.twice_wrong_task).
Proof.
  apply (validators_read_only_their_keys CreateTask Samples.twice_wrong_task
           (<["status" := VStr "no such status"]> Samples.twice_wrong_task)).
  intros k Hk. symmetry. apply lookup_insert_ne. intros <-.
  vm_compute in Hk. repeat (apply elem_of_cons in Hk as [Hk|Hk]; [discriminate Hk|]).
  by apply elem_of_nil in Hk.
Defined.

Lemma only_own_messages
    (op : operation) (d : gmap string value) :
  validator_of op d = passed
  \/ exists m, m ∈ messages op /\ validator_of op d = raise (ValueError m).
Proof.
  destruct op; simpl.
  - unfold validate_task.
    destruct (bad_id d); [right; eexists; split; [|reflexivity]; set_solver|].
    destruct (_ || _); [right; eexists; split; [|reflexivity]; set_solver|].
    destruct (_ || _); [right; eexists; split; [|reflexivity]; set_solver|].
    destruct (bad_actor _); [right; eexists; split; [|reflexivity]; set_solver|].
    by left.
  - unfold validate_proposal.
    destruct (bad_id d); [right; eexists; split; [|reflexivity]; set_solver|].
    destruct (_ && _); [right; eexists; split; [|reflexivity]; set_solver|].
    destruct (bad_actor _); [right; eexists; split; [|reflexivity]; set_solver|].
    destruct (bad_text _ _); [right; eexists; split; [|reflexivity]; set_solver|].
    destruct (get d "timeline");
      try (right; eexists; split; [|reflexivity]; set_solver).
    destruct (negb _); [right; eexists; split; [|reflexivity]; set_solver|].
    by left.
  - unfold validate_deliverable.
    destruct (bad_id d); [right; eexists; split; [|reflexivity]; set_solver|].
    destruct (negb _); [right; eexists; split; [|reflexivity]; set_solver|].
    destruct (negb _); [right; eexists; split; [|reflexivity]; set_solver|].
    destruct (bad_actor _); [right; eexists; split; [|reflexivity]; set_solver|].
    destruct (bad_list _); [right; eexists; split; [|reflexivity]; set_solver|].
    destruct (get d "evidence");
      try (right; eexists; split; [|reflexivity]; set_solver).
    destruct (bad_list _); [right; eexists; split; [|reflexivity]; set_solver|].
    by left.
  - unfold validate_review.
    destruct (bad_id d); [right; eexists; split; [|reflexivity]; set_solver|].
    destruct (negb _); [right; eexists; split; [|reflexivity]; set_solver|].
    destruct (bad_actor _); [right; eexists; split; [|reflexivity]; set_solver|].
    destruct (negb _); [right; eexists; split; [|reflexivity]; set_solver|].
    by left.
Qed.

(** X5: A validator either returns or raises a ValueError carrying one of its
    own messages; it raises nothing else. *)
Theorem validators_raise_only_their_messages
    (op : operation) (d : gmap string value) :
  validator_of op d = passed
  \/ exists m, m ∈ messages op /\ validator_of op d = raise (ValueError m).
Proof. apply only_own_messages. Qed.

(** X6: A deliverable whose artifacts are missing, empty or no list never
    passes; the error is the one on the artifacts exactly when the id,
    the two references and the submitter pass their checks (the evidence
    plays no part). *)
Theorem deliverable_without_artifacts_rejected (deliverable : gmap string value) :
  ~ nonempty_list (deliverable !! "artifacts") ->
  (exists m, validate_deliverable deliverable = raise (ValueError m))
  /\ (validate_deliverable deliverable
      = raise (ValueError "Deliverable must have at least one artifact")
      <-> nonempty_str (deliverable !! "id")
          /\ present (deliverable !! "task_id")
          /\ present (deliverable !! "contract_id")
          /\ actor_with_id (deliverable !! "submitter")).
Proof.
  intros Hno.
  assert (B : bad_list (get_default deliverable "artifacts" (VList [])) = true).
  { destruct (bad_list _) eqn:B; [reflexivity|].
    apply bad_list_false in B. contradiction. }
  rewrite <- bad_id_false, <- !truthy_get_true, <- bad_actor_false.
  unfold validate_deliverable, raise. rewrite B.
  destruct (bad_id deliverable);
    [split; [eauto|split; [discriminate|intros (? & _); discriminate]]|].
  destruct (truthy (get deliverable "task_id")); simpl;
    [|split; [eauto|split; [discriminate|intros (_ & ? & _); discriminate]]].
  destruct (truthy (get deliverable "contract_id")); simpl;
    [|split; [eauto|split; [discriminate|intros (_ & _ & ? & _); discriminate]]].
  destruct (bad_actor _);
    [split; [eauto|split; [discriminate|intros (_ & _ & _ & ?); discriminate]]|].
  split; [eauto|]. split; auto.
Qed.

Lemma deliverable_without_artifacts_rejected_witness :
  (exists m, validate_deliverable Samples.test_deliverable = raise (ValueError m))
  /\ (validate_deliverable Samples.test_deliverable
      = raise (ValueError "Deliverable must have at least one artifact")
      <-> nonempty_str (Samples.test_deliverable !! "id")
          /\ present (Samples.test_deliverable !! "task_id")
          /\ present (Samples.test_deliverable !! "contract_id")
          /\ actor_with_id (Samples.test_deliverable !! "submitter")).
Proof.
  apply (deliverable_without_artifacts_rejected Samples.test_deliverable).
  intros (x & xs & E). vm_compute in E. discriminate E.
Defined.

End ValidatorFacts.

(** ** More on the client *)

Module ClientFacts.

Import Validator Shapes ClientRest ValidatorFacts.

Section Transport.

Context (env : Env) (self : OHAPClient).

Lemma dumps_body_run body w :
  dumps_body body env w = (inr (content_of w body), w).
Proof.
  destruct body as [r|]; [|reflexivity].
  unfold dumps_body, content_of, bind, load, ret, truthy.
  by destruct (size (obj w r) =? 0)%nat.
Qed.

Lemma finish_request rq w :
  bind (send rq)
    (fun response =>
       if 400 <=? status_code response
       then Client.raise (Exception ("OHAP API error: "
              ++ pretty (status_code response) ++ " " ++ text response))
       else match json response with
            | inl msg => Client.raise (JSONDecodeError msg)
            | inr data => ret data
            end) env w
  = (answer (server env (sent w) rq), after_send w rq).
Proof.
  unfold bind, send, answer, Client.raise, ret, after_send.
  destruct (server env (sent w) rq) as [reason|rs]; [reflexivity|].
  destruct (400 <=? _); [reflexivity|]. destruct (json rs); reflexivity.
Qed.

(** X7: A method [_request] does not know raises a ValueError naming it, and
    nothing is sent or changed. *)
Theorem request_unsupported_method (m path : string) (body : option ref) (w : World) :
  supported m = false ->
  _request self m path body env w
  = (inl (ValueError ("Unsupported method: " ++ m)), w).
Proof.
  unfold supported. intros H.
  apply orb_false_elim in H as [H Hp]. apply orb_false_elim in H as [Hg Ho].
  unfold _request. rewrite Hg, Ho, Hp. reflexivity.
Qed.

(** X8: A GET, POST or PATCH, spelled in any letter case, issues exactly
    one request to the base URL followed by the path, with the client's
    headers; a GET never has a body, a POST or PATCH has the object given,
    unless that is absent or empty.  The call raises in three cases and
    no other: httpx got no answer (the transport error), the answer's
    status is 400 or more (the API error), or the answer's body is not
    JSON (the decode error, a ValueError); otherwise it returns the
    decoded answer.  It changes no object. *)
Theorem request_supported_method (m path : string) (body : option ref) (w : World) :
  supported m = true ->
  let rq := mkRequest (upper m) (base_url self ++ path) (request_headers self)
              (if String.eqb (upper m) "GET" then None else content_of w body) in
  let out := _request self m path body env w in
  out = (answer (server env (sent w) rq), after_send w rq)
  /\ match server env (sent w) rq with
     | NoAnswer reason => fst out = inl (TransportError reason)
     | Answered rs =>
         if 400 <=? status_code rs then
           fst out = inl (Exception ("OHAP API error: "
                          ++ pretty (status_code rs) ++ " " ++ text rs))
         else
           match json rs with
           | inl msg => fst out = inl (JSONDecodeError msg)
           | inr data => fst out = inr data
           end
     end
  /\ heap (snd out) = heap w.
Proof.
  intros H rq out.
  assert (E : out = (answer (server env (sent w) rq), after_send w rq)).
  { subst out. unfold _request, supported in *. subst rq.
    destruct (String.eqb (upper m) "GET") eqn:Hg.
    - apply String.eqb_eq in Hg. rewrite Hg. apply finish_request.
    - destruct (String.eqb (upper m) "POST") eqn:Hp.
      + apply String.eqb_eq in Hp. rewrite Hp.
        unfold bind at 1. unfold bind at 1. rewrite dumps_body_run.
        exact (finish_request _ w).
      + destruct (String.eqb (upper m) "PATCH") eqn:Ha; [|discriminate H].
        apply String.eqb_eq in Ha. rewrite Ha.
        unfold bind at 1. unfold bind at 1. rewrite dumps_body_run.
        exact (finish_request _ w). }
  split; [exact E|]. rewrite E. unfold answer. simpl. split; [|reflexivity].
  destruct (server env (sent w) rq) as [reason|rs]; [reflexivity|].
  destruct (400 <=? status_code rs); [reflexivity|].
  destruct (json rs); reflexivity.
Qed.

End Transport.

Lemma request_unsupported_method_witness :
  _request Samples.strict_client "DELETE" "/tasks/task-1" None Samples.env0 (Samples.world_with Samples.logo_task)
  = (inl (ValueError ("Unsupported method: " ++ "DELETE")),
     Samples.world_with Samples.logo_task).
Proof.
  apply (request_unsupported_method Samples.env0 Samples.strict_client "DELETE" "/tasks/task-1" None
           (Samples.world_with Samples.logo_task)).
  reflexivity.
Defined.

Lemma request_supported_method_witness :
  let w := Samples.world_with Samples.logo_task in
  let rq := mkRequest (upper "patch")
              (base_url Samples.strict_client ++ "/tasks/task-1")
              (request_headers Samples.strict_client)
              (if String.eqb (upper "patch") "GET" then None
               else content_of w (Some 0%nat)) in
  let out := _request Samples.strict_client "patch" "/tasks/task-1" (Some 0%nat)
               Samples.env1 w in
  out = (answer (server Samples.env1 (sent w) rq), after_send w rq)
  /\ match server Samples.env1 (sent w) rq with
     | NoAnswer reason => fst out = inl (TransportError reason)
     | Answered rs =>
         if 400 <=? status_code rs then
           fst out = inl (Exception ("OHAP API error: "
                          ++ pretty (status_code rs) ++ " " ++ text rs))
         else
           match json rs with
           | inl msg => fst out = inl (JSONDecodeError msg)
           | inr data => fst out = inr data
           end
     end
  /\ heap (snd out) = heap w.
Proof.
  apply (request_supported_method Samples.env1 Samples.strict_client "patch"
           "/tasks/task-1" (Some 0%nat) (Samples.world_with Samples.logo_task)).
  reflexivity.
Defined.

Section ReadingAndUpdating.

Context (env : Env) (self : OHAPClient).

Lemma request_get path body w :
  _request self "GET" path body env w
  = (answer (server env (sent w) (get_of self path)), after_send w (get_of self path)).
Proof. apply finish_request. Qed.

Lemma request_patch path body w :
  let rq := mkRequest "PATCH" (base_url self ++ path) (request_headers self)
                      (content_of w body) in
  _request self "PATCH" path body env w
  = (answer (server env (sent w) rq), after_send w rq).
Proof.
  unfold _request.
  change (String.eqb (upper "PATCH") "GET") with false.
  change (String.eqb (upper "PATCH") "POST") with false.
  change (String.eqb (upper "PATCH") "PATCH") with true.
  cbv beta iota zeta. unfold bind at 1. unfold bind at 1.
  rewrite dumps_body_run. exact (finish_request env _ w).
Qed.

(** X9: The five reading operations issue one GET each, without body, to the
    path built from the id as it stands; they change no object, and their
    outcome is the server's. *)
Theorem readers_issue_one_get (id : string) (w : World) :
  let out path :=
    (answer (server env (sent w) (get_of self path)), after_send w (get_of self path)) in
  get_task self id env w = out ("/tasks/" ++ id)
  /\ get_proposals self id env w = out ("/tasks/" ++ id ++ "/proposals")
  /\ get_contract self id env w = out ("/contracts/" ++ id)
  /\ get_deliverable self id env w = out ("/deliverables/" ++ id)
  /\ get_review self id env w = out ("/reviews/" ++ id).
Proof. repeat split; apply request_get. Qed.

(** X10: [update_task] and [update_contract] send the caller's dict as it is in
    one PATCH, fill in nothing and validate nothing; an empty dict goes
    out as a PATCH without body.  The caller's objects stay as they
    were. *)
Theorem updates_patch_as_given (id : string) (updates : ref) (w : World) :
  let out path :=
    let rq := mkRequest "PATCH" (base_url self ++ path) (request_headers self)
                (if (size (obj w updates) =? 0)%nat then None
                 else Some (VDict (obj w updates))) in
    (answer (server env (sent w) rq), after_send w rq) in
  update_task self id updates env w = out ("/tasks/" ++ id)
  /\ update_contract self id updates env w = out ("/contracts/" ++ id)
  /\ heap (snd (update_task self id updates env w)) = heap w
  /\ heap (snd (update_contract self id updates env w)) = heap w.
Proof.
  unfold update_task, update_contract. rewrite !request_patch.
  repeat split.
Qed.

Lemma alloc_run d w :
  exists b w0,
    alloc d env w = (inr b, w0)
    /\ heap w !! b = None
    /\ heap w0 = <[b := d]> (heap w)
    /\ obj w0 b = d
    /\ sent w0 = sent w /\ ticks w0 = ticks w /\ draws w0 = draws w.
Proof.
  eexists _, _. split; [reflexivity|]. simpl.
  assert (F : heap w !! fresh (dom (heap w)) = None).
  { apply not_elem_of_dom. apply is_fresh. }
  split; [exact F|]. split; [reflexivity|].
  split; [|auto]. unfold obj; simpl. by rewrite lookup_insert_eq.
Qed.

(** X11: [update_proposal_status] sends one PATCH to [/proposals/<id>] whose
    body is the dict with the single key [status], also when the status
    text is empty; no object the caller holds is changed. *)
Theorem update_proposal_status_patch (proposal_id status : string) (w : World) :
  let rq := mkRequest "PATCH" (base_url self ++ "/proposals/" ++ proposal_id)
              (request_headers self)
              (Some (VDict {["status" := VStr status]})) in
  let out := update_proposal_status self proposal_id status env w in
  fst out = answer (server env (sent w) rq)
  /\ sent (snd out) = (sent w ++ [rq])%list
  /\ (forall r d, heap w !! r = Some d -> heap (snd out) !! r = Some d).
Proof.
  intros rq out. subst out. unfold update_proposal_status.
  destruct (alloc_run {["status" := VStr status]} w)
    as (b & w0 & E & Hb & Hh & Ho & Hs & _).
  assert (C : content_of w0 (Some b) = Some (VDict {["status" := VStr status]})).
  { unfold content_of. rewrite Ho. by rewrite map_size_singleton. }
  rewrite (bind_ok env _ _ _ _ _ E), request_patch. cbv zeta.
  rewrite C, Hs. simpl. rewrite Hs. repeat split.
  intros r d Hr. rewrite Hh. rewrite lookup_insert_ne; [done|].
  intros <-. congruence.
Qed.

(** X12: [list_tasks] issues one GET without body.  A filter given as the
    empty text is dropped like one not given, and without any filter the
    URL is the base URL followed by [/tasks], with no question mark. *)
Theorem list_tasks_filters
    (urlencode : list (string * string) -> string)
    (status domain initiator_id : option string) (w : World) :
  list_tasks urlencode self status domain initiator_id env w
  = list_tasks urlencode self (given status) (given domain) (given initiator_id) env w
  /\ (given status = None -> given domain = None -> given initiator_id = None ->
      list_tasks urlencode self status domain initiator_id env w
      = (answer (server env (sent w) (get_of self "/tasks")),
         after_send w (get_of self "/tasks")))
  /\ exists query,
       list_tasks urlencode self status domain initiator_id env w
       = (answer (server env (sent w) (get_of self ("/tasks" ++ query))),
          after_send w (get_of self ("/tasks" ++ query))).
Proof.
  assert (A : forall k f fs, add_filter k f fs = add_filter k (given f) fs).
  { intros k [s|] fs; simpl; [|reflexivity].
    destruct (String.length s =? 0)%nat eqn:L; simpl; [reflexivity|].
    by rewrite L. }
  assert (N : forall k f fs, given f = None -> add_filter k f fs = fs).
  { intros k f fs H. by rewrite A, H. }
  split; [|split].
  - unfold list_tasks. by rewrite (A "status"), (A "domain"), (A "initiator_id").
  - intros H1 H2 H3. unfold list_tasks. rewrite !N by assumption. simpl.
    rewrite request_get. reflexivity.
  - unfold list_tasks. eexists. apply request_get.
Qed.

End ReadingAndUpdating.

Lemma update_proposal_status_patch_witness :
  let w := Samples.world_with Samples.rejected_proposal in
  let rq := mkRequest "PATCH" (base_url Samples.strict_client ++ "/proposals/" ++ "prop-1")
              (request_headers Samples.strict_client)
              (Some (VDict {["status" := VStr ""]})) in
  let out := update_proposal_status Samples.strict_client "prop-1" "" Samples.env0 w in
  fst out = answer (server Samples.env0 (sent w) rq)
  /\ sent (snd out) = (sent w ++ [rq])%list
  /\ (forall r d, heap w !! r = Some d -> heap (snd out) !! r = Some d).
Proof.
  exact (update_proposal_status_patch Samples.env0 Samples.strict_client "prop-1" ""
           (Samples.world_with Samples.rejected_proposal)).
Defined.

Lemma list_tasks_filters_witness :
  let ue := fun fs : list (string * string) =>
              String.concat "&" (map (fun p => fst p ++ "=" ++ snd p) fs) in
  let w := Samples.world_with Samples.logo_task in
  list_tasks ue Samples.strict_client (Some "") (Some "design") None Samples.env0 w
  = list_tasks ue Samples.strict_client (given (Some "")) (given (Some "design")) (given None) Samples.env0 w
  /\ (given (Some "") = None -> given (Some "design") = None -> given None = None ->
      list_tasks ue Samples.strict_client (Some "") (Some "design") None Samples.env0 w
      = (answer (server Samples.env0 (sent w) (get_of Samples.strict_client "/tasks")),
         after_send w (get_of Samples.strict_client "/tasks")))
  /\ exists query,
       list_tasks ue Samples.strict_client (Some "") (Some "design") None Samples.env0 w
       = (answer (server Samples.env0 (sent w) (get_of Samples.strict_client ("/tasks" ++ query))),
          after_send w (get_of Samples.strict_client ("/tasks" ++ query))).
Proof.
  exact (list_tasks_filters Samples.env0 Samples.strict_client _ (Some "") (Some "design") None
           (Samples.world_with Samples.logo_task)).
Defined.

Section Construction.

(** X13: Every request carries [Content-Type: application/json]; it carries an
    [Authorization] header exactly when the client has a non-empty API
    key, and then it is [Bearer] followed by the key; there is no other
    header. *)
Theorem authorization_header (self : OHAPClient) (h : string) :
  request_headers self !! "Content-Type" = Some "application/json"
  /\ (request_headers self !! "Authorization" = Some h
      <-> exists k, api_key self = Some k /\ k ≠ "" /\ h = "Bearer " ++ k)
  /\ (forall name, is_Some (request_headers self !! name) ->
        name = "Content-Type" \/ name = "Authorization").
Proof.
  unfold request_headers. destruct (api_key self) as [[|c k]|]; simpl.
  - split; [reflexivity|]. split.
    + split; [discriminate|]. intros (k & E & N & _). injection E as <-. done.
    + intros name [v Hv]. apply lookup_singleton_Some in Hv as [<- _]. by left.
  - split; [reflexivity|]. split.
    + rewrite lookup_insert_eq. split.
      * intros E. injection E as <-. eexists. split; [reflexivity|]. split; done.
      * intros (k' & E & _ & ->). injection E as <-. reflexivity.
    + intros name [v Hv]. apply lookup_insert_Some in Hv as [[<- _]|[_ Hv]].
      * by right.
      * apply lookup_singleton_Some in Hv as [<- _]. by left.
  - split; [reflexivity|]. split.
    + split; [discriminate|]. intros (k & E & _). discriminate E.
    + intros name [v Hv]. apply lookup_singleton_Some in Hv as [<- _]. by left.
Qed.

Lemma rstrip_slash_spec (s : string) :
  ends_with_slash (rstrip_slash s) = false
  /\ exists n, s = rstrip_slash s ++ slashes n.
Proof.
  induction s as [|c s [IHe [n IHn]]]; simpl.
  - split; [reflexivity|]. by exists 0%nat.
  - destruct (rstrip_slash s) as [|c' t] eqn:R.
    + simpl in IHn. destruct (Ascii.eqb c "/") eqn:C.
      * apply Ascii.eqb_eq in C as ->. split; [reflexivity|].
        exists (S n). simpl. by rewrite IHn.
      * split; [simpl; exact C|]. exists n. simpl. by rewrite IHn.
    + split; [exact IHe|]. exists n. simpl. by rewrite IHn at 1.
Qed.

(** X14: [__init__] fails exactly when httpx is missing; otherwise the client
    keeps the API key and the validation flag, and its base URL is the
    given one without its trailing slashes, all of them and nothing
    else. *)
Theorem init_strips_trailing_slashes
    (httpx : bool) (url : string) (key : option string) (flag : bool) :
  match __init__ httpx url key flag with
  | inl e =>
      httpx = false
      /\ e = ImportError "httpx is required. Install with: pip install httpx"
  | inr self =>
      httpx = true
      /\ ends_with_slash (base_url self) = false
      /\ (exists n, url = base_url self ++ slashes n)
      /\ api_key self = key
      /\ validate_schemas self = flag
  end.
Proof.
  unfold __init__. destruct httpx; simpl; [|done].
  destruct (rstrip_slash_spec url) as [E N]. auto.
Qed.

End Construction.

Section Identifiers.

Lemma string_app_inv_head (p a b : string) : p ++ a = p ++ b -> a = b.
Proof. induction p as [|c p IH]; simpl; [done|]. intros E. injection E. auto. Qed.

Lemma string_app_same_length (a b x y : string) :
  String.length a = String.length b -> a ++ x = b ++ y -> a = b.
Proof.
  revert b. induction a as [|c a IH]; intros [|c' b]; simpl; try done.
  intros L E. injection L as L. injection E as -> E. f_equal. by apply IH.
Qed.

Lemma string_app_length (a b : string) :
  String.length (a ++ b) = (String.length a + String.length b)%nat.
Proof. induction a as [|c a IH]; simpl; [done|]. by rewrite IH. Qed.

Lemma string_of_list_length (l : list ascii) :
  String.length (string_of_list_ascii l) = List.length l.
Proof. induction l as [|c l IH]; simpl; [done|]. by rewrite IH. Qed.

Lemma generate_id_run prefix env w :
  exists suffix w',
    _generate_id prefix env w =
      (inr (prefix ++ "-" ++ pretty (time_ms env (ticks w)) ++ "-"
            ++ string_of_list_ascii suffix), w')
    /\ List.length suffix = 9%nat.
Proof.
  destruct (fresh_id_run env prefix w) as (suffix & w' & E & L & _).
  exists suffix, w'. split; [|exact L].
  unfold fresh_id, bind in E.
  destruct (_generate_id prefix env w) as [[e|i] w1]; [discriminate E|].
  unfold ret in E. by injection E as -> ->.
Qed.

(** X15: Two identifiers generated with the same prefix at different clock
    readings differ, whatever the random draws are. *)
Theorem generated_ids_differ (prefix : string) (env env' : Env) (w w' : World) :
  time_ms env (ticks w) ≠ time_ms env' (ticks w') ->
  fst (_generate_id prefix env w) ≠ fst (_generate_id prefix env' w').
Proof.
  intros Ht.
  destruct (generate_id_run prefix env w) as (s1 & w1 & -> & L1).
  destruct (generate_id_run prefix env' w') as (s2 & w2 & -> & L2).
  simpl. intros E. injection E as E.
  apply string_app_inv_head in E. apply (string_app_inv_head "-") in E.
  apply Ht. apply (inj pretty).
  eapply string_app_same_length; [|exact E].
  apply (f_equal String.length) in E.
  rewrite !string_app_length, !string_of_list_length, L1, L2 in E.
  simpl in E. lia.
Qed.

Lemma generated_ids_differ_witness :
  fst (_generate_id "task" Samples.env1 (Samples.world_with Samples.logo_task))
  ≠ fst (_generate_id "task" Samples.env1
           (Samples.later_world_with Samples.logo_task)).
Proof.
  apply (generated_ids_differ "task" Samples.env1 Samples.env1
           (Samples.world_with Samples.logo_task)
           (Samples.later_world_with Samples.logo_task)).
  vm_compute. discriminate.
Defined.

End Identifiers.

Section Operations.

Context (op : operation) (self : OHAPClient) (r : ref) (env : Env) (w : World).

Lemma id_check_decides (d : gmap string value) :
  if bad_id d then validator_of op d = raise (ValueError (id_message op))
  else validator_of op d ≠ raise (ValueError (id_message op)).
Proof.
  destruct (bad_id d) eqn:B; destruct op; simpl;
    unfold validate_task, validate_proposal, validate_deliverable, validate_review;
    rewrite B; try reflexivity.
  - destruct (_ || _); [discriminate|]. destruct (_ || _); [discriminate|].
    destruct (bad_actor _); discriminate.
  - destruct (_ && _); [discriminate|]. destruct (bad_actor _); [discriminate|].
    destruct (bad_text _ _); [discriminate|].
    destruct (get d "timeline"); try discriminate. destruct (negb _); discriminate.
  - destruct (negb _); [discriminate|]. destruct (negb _); [discriminate|].
    destruct (bad_actor _); [discriminate|]. destruct (bad_list _); [discriminate|].
    destruct (get d "evidence"); try discriminate. destruct (bad_list _); discriminate.
  - destruct (negb _); [discriminate|]. destruct (bad_actor _); [discriminate|].
    destruct (negb _); discriminate.
Qed.

Lemma answer_not_value_error rp m : answer rp ≠ inl (ValueError m).
Proof.
  unfold answer. destruct rp as [reason|rs]; [discriminate|].
  destruct (400 <=? _); [discriminate|]. destruct (json rs); discriminate.
Qed.

Lemma prefix_not_empty : prefix_of op ≠ "".
Proof. destruct op; discriminate. Qed.

(** X16: When the caller gives no id, the one the operation assigns is a
    non-empty string, so the operation never fails on the id. *)
Theorem generated_id_passes_id_check :
  obj w r !! "id" = None ->
  nonempty_str (obj (snd (run_operation op self r env w)) r !! "id")
  /\ fst (run_operation op self r env w) ≠ inl (ValueError (id_message op)).
Proof.
  intros Hid.
  destruct (filled_generated_id env op r w Hid) as (suffix & E & _).
  assert (N : nonempty_str (obj (filled op r env w) r !! "id")).
  { eexists. split; [exact E|].
    pose proof prefix_not_empty. destruct (prefix_of op); [done|discriminate]. }
  split; [by rewrite ClientProps.run_operation_obj|].
  rewrite (run_operation_run env self op r w).
  apply bad_id_false in N. pose proof (id_check_decides (obj (filled op r env w) r)) as D.
  rewrite N in D.
  destruct (validate_schemas self).
  - destruct (validator_of op _) as [e|[]] eqn:V; simpl.
    + intros X. apply D. by injection X as ->.
    + apply answer_not_value_error.
  - simpl. apply answer_not_value_error.
Qed.

(** X17: An id the caller supplies is never replaced.  When it is not a
    non-empty string (None, an empty string, a number) and the client
    validates, the operation raises the error on the id and sends
    nothing. *)
Theorem supplied_id_is_kept (v : value) :
  obj w r !! "id" = Some v ->
  obj (snd (run_operation op self r env w)) r !! "id" = Some v
  /\ (~ nonempty_str (Some v) -> validate_schemas self = true ->
      run_operation op self r env w
      = (inl (ValueError (id_message op)), filled op r env w)
      /\ sent (filled op r env w) = sent w).
Proof.
  intros Hid.
  destruct (fill_defaults_run env op r w) as (_ & (Hs & I & _) & _).
  assert (K : obj (filled op r env w) r !! "id" = Some v)
    by (eapply lookup_weaken; eassumption).
  split; [by rewrite ClientProps.run_operation_obj|].
  intros Hbad Hv. split; [|exact Hs].
  rewrite (run_operation_run env self op r w), Hv.
  pose proof (id_check_decides (obj (filled op r env w) r)) as D.
  destruct (bad_id _) eqn:B.
  - by rewrite D.
  - apply bad_id_false in B. rewrite K in B. contradiction.
Qed.

Lemma read_key_not_default k :
  k ∈ read_keys op -> k ≠ "id" -> k ∉ default_keys op.
Proof.
  intros Hk Hne Hd. destruct op; simpl in *;
    repeat (apply elem_of_cons in Hk as [->|Hk]; [try done|]);
    try (by apply elem_of_nil in Hk);
    repeat (apply elem_of_cons in Hd as [Hd|Hd]; [discriminate Hd|]);
    by apply elem_of_nil in Hd.
Qed.

(** X18: The defaults an operation fills in play no part in validation: a
    candidate that comes with an id is validated as the caller built it. *)
Theorem defaults_do_not_affect_validation :
  is_Some (obj w r !! "id") ->
  validator_of op (obj (filled op r env w) r) = validator_of op (obj w r).
Proof.
  intros [v Hid].
  destruct (fill_defaults_run env op r w) as (_ & (_ & I & _ & F) & _).
  apply agree_on_read_keys. intros k Hk.
  destruct (decide (k = "id")) as [->|Hne].
  - rewrite Hid. eapply lookup_weaken; eassumption.
  - apply F. by apply read_key_not_default.
Qed.

(** X19: Submitting the same dict again fills in nothing new: the id and the
    timestamps of the first call are reused, no clock is read and nothing
    is drawn, and the dict stays as the first call left it. *)
Theorem resubmission_reuses_defaults (self' : OHAPClient) (env' : Env) :
  let w1 := snd (run_operation op self r env w) in
  filled op r env' w1 = w1
  /\ obj (snd (run_operation op self' r env' w1)) r = obj w1 r.
Proof.
  intros w1.
  destruct (fill_defaults_run env op r w) as (_ & _ & P & _).
  assert (P1 : Forall (fun k => is_Some (obj w1 r !! k)) (default_keys op)).
  { eapply Forall_impl; [exact P|]. intros k Hk. simpl in Hk.
    unfold w1. by rewrite ClientProps.run_operation_obj. }
  destruct (fill_defaults_run env' op r w1) as (_ & _ & _ & N).
  split; [exact (N P1)|].
  by rewrite ClientProps.run_operation_obj, (N P1).
Qed.

(** X20: An operation issues no request exactly when it raises one of
    its validator's errors, which only a validating client does.
    Otherwise it issues exactly one request, the POST of the caller's
    dict as the call leaves it, and its outcome is what comes of that
    request: the decoded answer, a transport error, the API error, or
    the decode error of a body that is not JSON (a ValueError too, but
    raised after the request went out). *)
Theorem operation_outcomes :
  let out := run_operation op self r env w in
  let rq := post_of op self (obj (snd out) r) in
  (sent (snd out) = sent w \/ sent (snd out) = (sent w ++ [rq])%list)
  /\ (sent (snd out) = sent w
      <-> exists m, m ∈ messages op /\ fst out = inl (ValueError m))
  /\ (sent (snd out) = sent w -> validate_schemas self = true)
  /\ (sent (snd out) ≠ sent w -> fst out = answer (server env (sent w) rq)).
Proof.
  intros out rq.
  assert (O : obj (snd out) r = obj (filled op r env w) r)
    by apply ClientProps.run_operation_obj.
  subst rq. rewrite O. subst out. rewrite (run_operation_run env self op r w).
  destruct (fill_defaults_run env op r w) as (_ & (Hs & _) & _).
  assert (G : forall (l : list Request) x, (l ++ [x])%list ≠ l).
  { intros l x E. apply (f_equal List.length) in E.
    rewrite length_app in E. simpl in E. lia. }
  destruct (validate_schemas self);
    [destruct (validator_of op _) as [e|[]] eqn:V|]; simpl; rewrite Hs.
  - destruct (only_own_messages op (obj (filled op r env w) r)) as [X|(m & Hm & X)];
      rewrite V in X; [discriminate X|]. injection X as ->.
    split; [by left|]. split; [split; eauto|]. split; [auto|]. intros N. done.
  - split; [by right|]. split; [|split; [intros E; by apply G in E|reflexivity]].
    split; [intros E; by apply G in E|].
    intros (m & _ & X). by apply answer_not_value_error in X.
  - split; [by right|]. split; [|split; [intros E; by apply G in E|reflexivity]].
    split; [intros E; by apply G in E|].
    intros (m & _ & X). by apply answer_not_value_error in X.
Qed.

End Operations.

Lemma supplied_id_is_kept_witness :
  let w := Samples.world_with Samples.none_id_task in
  obj (snd (run_operation CreateTask Samples.strict_client 0%nat Samples.env0 w))
    0%nat !! "id" = Some VNone
  /\ (~ nonempty_str (Some VNone) ->
      validate_schemas Samples.strict_client = true ->
      run_operation CreateTask Samples.strict_client 0%nat Samples.env0 w
      = (inl (ValueError (id_message CreateTask)),
         filled CreateTask 0%nat Samples.env0 w)
      /\ sent (filled CreateTask 0%nat Samples.env0 w) = sent w).
Proof.
  apply (supplied_id_is_kept CreateTask Samples.strict_client 0%nat Samples.env0
           (Samples.world_with Samples.none_id_task) VNone).
  reflexivity.
Defined.

Lemma defaults_do_not_affect_validation_witness :
  validator_of CreateTask
    (obj (filled CreateTask 0%nat Samples.env0
            (Samples.world_with Samples.twice_wrong_task)) 0%nat)
  = validator_of CreateTask
      (obj (Samples.world_with Samples.twice_wrong_task) 0%nat).
Proof.
  apply (defaults_do_not_affect_validation CreateTask 0%nat Samples.env0
           (Samples.world_with Samples.twice_wrong_task)).
  vm_compute. eexists. reflexivity.
Defined.

Lemma generated_id_passes_id_check_witness :
  nonempty_str (obj (snd (run_operation SubmitReview Samples.strict_client 0%nat
                            Samples.env0 (Samples.world_with Samples.test_review)))
                  0%nat !! "id")
  /\ fst (run_operation SubmitReview Samples.strict_client 0%nat Samples.env0
            (Samples.world_with Samples.test_review))
     ≠ inl (ValueError (id_message SubmitReview)).
Proof.
  apply (generated_id_passes_id_check SubmitReview Samples.strict_client 0%nat
           Samples.env0 (Samples.world_with Samples.test_review)).
  reflexivity.
Defined.

End ClientFacts.

(** ** The LangChain tools *)

Module ToolFacts.

Import Validator Shapes ClientRest LangChain ValidatorFacts ClientFacts.

Section Tools.

Context (self : OHAPClient) (env : Env) (w : World).

(** A tool builds a new dict, runs the operation on it and reads the
    answer; the world it leaves is the one the operation leaves. *)
Lemma tool_run (op : operation) (d : gmap string value) (k : value -> T value) :
  (forall a e' w', snd (k a e' w') = w') ->
  exists b w0,
    heap w !! b = None
    /\ heap w0 = <[b := d]> (heap w)
    /\ obj w0 b = d
    /\ sent w0 = sent w
    /\ tbind (lift (alloc d))
         (fun r => tbind (lift (run_operation op self r)) k) env w
       = match run_operation op self b env w0 with
         | (inl e, w') => (inl (Raised e), w')
         | (inr a, w') => k a env w'
         end
    /\ snd (tbind (lift (alloc d))
              (fun r => tbind (lift (run_operation op self r)) k) env w)
       = snd (run_operation op self b env w0).
Proof.
  intros Hk.
  destruct (alloc_run env d w) as (b & w0 & E & Hb & Hh & Ho & Hs & _).
  exists b, w0. repeat (split; [assumption|]).
  assert (R : tbind (lift (alloc d))
                (fun r => tbind (lift (run_operation op self r)) k) env w
              = match run_operation op self b env w0 with
                | (inl e, w') => (inl (Raised e), w')
                | (inr a, w') => k a env w'
                end).
  { unfold tbind at 1. unfold lift at 1. rewrite E.
    unfold tbind, lift.
    destruct (run_operation op self b env w0) as [[e|a] w']; reflexivity. }
  split; [exact R|]. rewrite R.
  destruct (run_operation op self b env w0) as [[e|a] w']; [reflexivity|apply Hk].
Qed.

Lemma dumps_pair_world k1 x k2 y e' w' :
  snd (dumps_pair k1 x k2 y e' w') = w'.
Proof.
  unfold dumps_pair, tbind, result. destruct x; [reflexivity|].
  destruct y; reflexivity.
Qed.

Lemma filled_new_id_ok op b w0 :
  obj w0 b !! "id" = None -> bad_id (obj (filled op b env w0) b) = false.
Proof.
  intros Hid. apply bad_id_false.
  destruct (filled_generated_id env op b w0 Hid) as (suffix & E & _).
  eexists. split; [exact E|].
  pose proof (prefix_not_empty op). destruct (prefix_of op); [done|discriminate].
Qed.

Lemma filled_keeps op b w0 k v :
  obj w0 b !! k = Some v -> get (obj (filled op b env w0) b) k = v.
Proof.
  intros H. destruct (fill_defaults_run env op b w0) as (_ & (_ & I & _) & _).
  unfold get. by rewrite (lookup_weaken _ _ _ _ H I).
Qed.

Lemma filled_keeps_default op b w0 k v dflt :
  obj w0 b !! k = Some v -> get_default (obj (filled op b env w0) b) k dflt = v.
Proof.
  intros H. destruct (fill_defaults_run env op b w0) as (_ & (_ & I & _) & _).
  unfold get_default. by rewrite (lookup_weaken _ _ _ _ H I).
Qed.

Lemma filled_lacks op b w0 k :
  obj w0 b !! k = None -> k ∉ default_keys op ->
  obj (filled op b env w0) b !! k = None.
Proof.
  intros H Hk. destruct (fill_defaults_run env op b w0) as (_ & (_ & _ & _ & F) & _).
  by rewrite F.
Qed.

Lemma frame_of_tool op b w0 d :
  heap w !! b = None -> heap w0 = <[b := d]> (heap w) ->
  forall r', is_Some (heap w !! r') ->
    obj (snd (run_operation op self b env w0)) r' = obj w r'.
Proof.
  intros Hb Hh r' [x Hx].
  assert (Hne : r' ≠ b) by (intros ->; congruence).
  rewrite ClientProps.run_operation_obj.
  destruct (fill_defaults_run env op b w0) as (_ & (_ & _ & O & _) & _).
  rewrite (O r' Hne). unfold obj. by rewrite Hh, lookup_insert_ne.
Qed.

End Tools.

(** X21: With a validating client the proposal tool can never submit: the dict
    it builds has no timeline, so the call raises a validation error,
    the one on the completion date when the three texts are in order,
    and sends nothing.  The caller's objects stay as they were. *)
Theorem proposal_tool_never_posts
    (self : OHAPClient) (env : Env) (w : World)
    (task_id proposer_id proposer_type approach : string) :
  validate_schemas self = true ->
  let out := ohap_submit_proposal self task_id proposer_id proposer_type
               approach env w in
  (exists m, m ∈ messages SubmitProposal /\ fst out = inl (Raised (ValueError m)))
  /\ sent (snd out) = sent w
  /\ (forall r', is_Some (heap w !! r') -> obj (snd out) r' = obj w r')
  /\ (task_id ≠ "" -> proposer_id ≠ "" -> (20 <= String.length approach)%nat ->
      fst out = inl (Raised (ValueError
                  "Proposal must have an estimated completion date"))).
Proof.
  intros Hv out. subst out. unfold ohap_submit_proposal.
  match goal with |- context [lift (alloc ?d)] => set (D := d) end.
  match goal with |- context [tbind (lift (submit_proposal self _)) ?k] =>
    destruct (tool_run self env w SubmitProposal D k) as
      (b & w0 & Hb & Hh & Ho & Hs & R & W);
    [intros; apply dumps_pair_world|] end.
  change (fun r => tbind (lift (submit_proposal self r)) ?k)
    with (fun r => tbind (lift (run_operation SubmitProposal self r)) k).
  rewrite W, R. rewrite (run_operation_run env self SubmitProposal b w0), Hv.
  set (F := obj (filled SubmitProposal b env w0) b).
  assert (Tl : F !! "timeline" = None).
  { apply filled_lacks; [by rewrite Ho|].
    simpl. intros H. repeat (apply elem_of_cons in H as [H|H]; [discriminate H|]).
    by apply elem_of_nil in H. }
  assert (Bi : bad_id F = false) by (apply filled_new_id_ok; by rewrite Ho).
  assert (Gt : get F "task_id" = VStr task_id)
    by (apply filled_keeps; by rewrite Ho).
  assert (Gp : get F "proposer"
               = VDict (<["type" := VStr proposer_type]> {["id" := VStr proposer_id]}))
    by (apply filled_keeps; by rewrite Ho).
  assert (Ga : get_default F "approach" (VStr "") = VStr approach).
  { unfold get_default. destruct (fill_defaults_run env SubmitProposal b w0)
      as (_ & (_ & I & _) & _).
    assert (X : obj w0 b !! "approach" = Some (VStr approach)) by (by rewrite Ho).
    fold F in I. by rewrite (lookup_weaken _ _ _ _ X I). }
  assert (Gl : get F "timeline" = VNone) by (unfold get; by rewrite Tl).
  destruct (fill_defaults_run env SubmitProposal b w0) as (_ & (Hs1 & _) & _).
  assert (V : exists m, m ∈ messages SubmitProposal
                /\ validator_of SubmitProposal F = inl (ValueError m)).
  { destruct (only_own_messages SubmitProposal F) as [P|P]; [|exact P].
    exfalso. simpl in P. unfold validate_proposal in P.
    rewrite Bi, Gl in P.
    destruct (_ && _); [discriminate P|]. destruct (bad_actor _); [discriminate P|].
    destruct (bad_text _ _); discriminate P. }
  destruct V as (m & Hm & V). simpl validator_of in *. rewrite V. simpl.
  split; [eauto|]. split; [congruence|]. split.
  - intros r' Hr.
    pose proof (frame_of_tool self env w SubmitProposal b w0 D Hb Hh r' Hr) as X.
    by rewrite ClientProps.run_operation_obj in X.
  - intros Ht Hp Hl.
    assert (T1 : truthy (VStr task_id) = true) by (by destruct task_id).
    assert (T2 : truthy (get (<["type" := VStr proposer_type]>
                               {["id" := VStr proposer_id]}) "id") = true).
    { unfold get. rewrite lookup_insert_ne by discriminate.
      rewrite lookup_singleton_eq. by destruct proposer_id. }
    assert (T3 : (String.length approach <? 20)%nat = false) by (by apply Nat.ltb_ge).
    assert (V2 : validate_proposal F
                 = inl (ValueError "Proposal must have an estimated completion date")).
    { unfold validate_proposal. rewrite Bi, Gt, Gp, Ga, Gl.
      unfold bad_actor, bad_text. rewrite T1, T2, T3. reflexivity. }
    rewrite V in V2. by injection V2 as ->.
Qed.

Lemma proposal_tool_never_posts_witness :
  let w := Samples.world_with Samples.logo_task in
  let out := ohap_submit_proposal Samples.strict_client "task-1" "h1" "human"
               "I will create three concept directions" Samples.env0 w in
  (exists m, m ∈ messages SubmitProposal /\ fst out = inl (Raised (ValueError m)))
  /\ sent (snd out) = sent w
  /\ (forall r', is_Some (heap w !! r') -> obj (snd out) r' = obj w r')
  /\ ("task-1" ≠ "" -> "h1" ≠ "" ->
      (20 <= String.length "I will create three concept directions")%nat ->
      fst out = inl (Raised (ValueError
                  "Proposal must have an estimated completion date"))).
Proof.
  apply (proposal_tool_never_posts Samples.strict_client Samples.env0
           (Samples.world_with Samples.logo_task)).
  reflexivity.
Defined.

Ltac not_a_default :=
  let H := fresh in
  simpl; intros H;
  repeat (apply elem_of_cons in H as [H|H]; [discriminate H|]);
  by apply elem_of_nil in H.

Lemma grows_by_one (l : list Request) (x : Request) : (l ++ [x])%list ≠ l.
Proof.
  intros E. apply (f_equal List.length) in E.
  rewrite length_app in E. simpl in E. lia.
Qed.

Lemma truthy_text (s : string) : truthy (VStr s) = true <-> s ≠ "".
Proof. destruct s; simpl; split; try done. Qed.

(** X22: With a validating client the deliverable tool can never submit: the
    dict it builds has no evidence, so the call raises a validation
    error, the one on the evidence when the three ids are non-empty, and
    sends nothing.  The caller's objects stay as they were. *)
Theorem deliverable_tool_never_posts
    (self : OHAPClient) (env : Env) (w : World)
    (task_id contract_id submitter_id artifact_reference : string) :
  validate_schemas self = true ->
  let out := ohap_submit_deliverable self task_id contract_id submitter_id
               artifact_reference env w in
  (exists m, m ∈ messages SubmitDeliverable
             /\ fst out = inl (Raised (ValueError m)))
  /\ sent (snd out) = sent w
  /\ (forall r', is_Some (heap w !! r') -> obj (snd out) r' = obj w r')
  /\ (task_id ≠ "" -> contract_id ≠ "" -> submitter_id ≠ "" ->
      fst out = inl (Raised (ValueError "Deliverable must have evidence data"))).
Proof.
  intros Hv out. subst out. unfold ohap_submit_deliverable.
  match goal with |- context [lift (alloc ?d)] => set (D := d) end.
  match goal with |- context [tbind (lift (submit_deliverable self _)) ?k] =>
    destruct (tool_run self env w SubmitDeliverable D k) as
      (b & w0 & Hb & Hh & Ho & Hs & R & W);
    [intros; apply dumps_pair_world|] end.
  change (fun r => tbind (lift (submit_deliverable self r)) ?k)
    with (fun r => tbind (lift (run_operation SubmitDeliverable self r)) k).
  rewrite W, R. rewrite (run_operation_run env self SubmitDeliverable b w0), Hv.
  set (F := obj (filled SubmitDeliverable b env w0) b).
  assert (Ev : F !! "evidence" = None)
    by (apply filled_lacks; [by rewrite Ho|not_a_default]).
  assert (Bi : bad_id F = false) by (apply filled_new_id_ok; by rewrite Ho).
  assert (Gt : get F "task_id" = VStr task_id)
    by (apply filled_keeps; by rewrite Ho).
  assert (Gc : get F "contract_id" = VStr contract_id)
    by (apply filled_keeps; by rewrite Ho).
  assert (Gs : get F "submitter" = VDict {["id" := VStr submitter_id]})
    by (apply filled_keeps; by rewrite Ho).
  assert (Ga : get_default F "artifacts" (VList [])
               = VList [VDict (<["reference" := VStr artifact_reference]>
                                 {["type" := VStr "url"]})])
    by (apply filled_keeps_default; by rewrite Ho).
  assert (Ge : get F "evidence" = VNone) by (unfold get; by rewrite Ev).
  destruct (fill_defaults_run env SubmitDeliverable b w0) as (_ & (Hs1 & _) & _).
  assert (V : exists m, m ∈ messages SubmitDeliverable
                /\ validator_of SubmitDeliverable F = inl (ValueError m)).
  { destruct (only_own_messages SubmitDeliverable F) as [P|P]; [|exact P].
    exfalso. simpl in P. unfold validate_deliverable in P.
    rewrite Bi, Ge in P.
    destruct (negb _); [discriminate P|]. destruct (negb _); [discriminate P|].
    destruct (bad_actor _); [discriminate P|].
    destruct (bad_list _); discriminate P. }
  destruct V as (m & Hm & V). simpl validator_of in *. rewrite V. simpl.
  split; [eauto|]. split; [congruence|]. split.
  - intros r' Hr.
    pose proof (frame_of_tool self env w SubmitDeliverable b w0 D Hb Hh r' Hr) as X.
    by rewrite ClientProps.run_operation_obj in X.
  - intros Ht Hc Hsub.
    apply truthy_text in Ht, Hc, Hsub.
    assert (V2 : validate_deliverable F
                 = inl (ValueError "Deliverable must have evidence data")).
    { unfold validate_deliverable. rewrite Bi, Gt, Gc, Gs, Ga, Ge.
      unfold bad_actor, get. rewrite lookup_singleton_eq. simpl default.
      rewrite Ht, Hc, Hsub. reflexivity. }
    rewrite V in V2. by injection V2 as ->.
Qed.

Lemma deliverable_tool_never_posts_witness :
  let w := Samples.world_with Samples.logo_task in
  let out := ohap_submit_deliverable Samples.strict_client "task-1" "contract-001"
               "human-001" "https://example.org/logo.svg" Samples.env0 w in
  (exists m, m ∈ messages SubmitDeliverable
             /\ fst out = inl (Raised (ValueError m)))
  /\ sent (snd out) = sent w
  /\ (forall r', is_Some (heap w !! r') -> obj (snd out) r' = obj w r')
  /\ ("task-1" ≠ "" -> "contract-001" ≠ "" -> "human-001" ≠ "" ->
      fst out = inl (Raised (ValueError "Deliverable must have evidence data"))).
Proof.
  apply (deliverable_tool_never_posts Samples.strict_client Samples.env0
           (Samples.world_with Samples.logo_task)).
  reflexivity.
Defined.

Lemma tool_frame_of_filled (self : OHAPClient) (env : Env) (w : World)
    (op : operation) (b : ref) (w0 : World) (d : gmap string value) :
  heap w !! b = None -> heap w0 = <[b := d]> (heap w) ->
  forall r', is_Some (heap w !! r') -> obj (filled op b env w0) r' = obj w r'.
Proof.
  intros Hb Hh r' Hr.
  pose proof (frame_of_tool self env w op b w0 d Hb Hh r' Hr) as X.
  by rewrite ClientProps.run_operation_obj in X.
Qed.

(** X23: With a validating client the task tool never posts a task it
    was given badly: when the title has fewer than 3 characters, the
    objective fewer than 10 or the initiator id is empty, the call raises
    a validation error of the task validator and sends nothing; the
    caller's objects stay as they were. *)
Theorem create_task_tool_rejects_invalid
    (self : OHAPClient) (initiator_id initiator_type : string)
    (env : Env) (w : World) (title objective : string) :
  validate_schemas self = true ->
  (String.length title < 3)%nat \/ (String.length objective < 10)%nat
  \/ initiator_id = "" ->
  let out := ohap_create_task self initiator_id initiator_type title objective
               env w in
  (exists m, m ∈ messages CreateTask /\ fst out = inl (Raised (ValueError m)))
  /\ sent (snd out) = sent w
  /\ (forall r', is_Some (heap w !! r') -> obj (snd out) r' = obj w r').
Proof.
  intros Hv Hbad out. subst out. unfold ohap_create_task.
  match goal with |- context [lift (alloc ?d)] => set (D := d) end.
  match goal with |- context [tbind (lift (create_task self _)) ?k] =>
    destruct (tool_run self env w CreateTask D k) as
      (b & w0 & Hb & Hh & Ho & Hs & R & W);
    [intros; apply dumps_pair_world|] end.
  change (fun r => tbind (lift (create_task self r)) ?k)
    with (fun r => tbind (lift (run_operation CreateTask self r)) k).
  rewrite W, R. rewrite (run_operation_run env self CreateTask b w0), Hv.
  set (F := obj (filled CreateTask b env w0) b).
  assert (Bi : bad_id F = false) by (apply filled_new_id_ok; by rewrite Ho).
  assert (Gt : get F "title" = VStr title) by (apply filled_keeps; by rewrite Ho).
  assert (Gt' : get_default F "title" (VStr "") = VStr title)
    by (apply filled_keeps_default; by rewrite Ho).
  assert (Go : get F "objective" = VStr objective)
    by (apply filled_keeps; by rewrite Ho).
  assert (Go' : get_default F "objective" (VStr "") = VStr objective)
    by (apply filled_keeps_default; by rewrite Ho).
  assert (Gi : get F "initiator"
               = VDict (<["type" := VStr initiator_type]> {["id" := VStr initiator_id]}))
    by (apply filled_keeps; by rewrite Ho).
  destruct (fill_defaults_run env CreateTask b w0) as (_ & (Hs1 & _) & _).
  pose proof (tool_frame_of_filled self env w CreateTask b w0 D Hb Hh) as Fr.
  assert (NP : validator_of CreateTask F ≠ passed).
  { simpl validator_of. unfold validate_task.
    rewrite Bi, Gt, Gt', Go, Go', Gi. unfold bad_actor, get.
    rewrite lookup_insert_ne by discriminate. rewrite lookup_singleton_eq.
    simpl default. simpl is_str. simpl negb. simpl orb.
    destruct (String.length title <? 3)%nat eqn:L1; [discriminate|].
    destruct (String.length objective <? 10)%nat eqn:L2; [discriminate|].
    apply Nat.ltb_ge in L1, L2.
    destruct Hbad as [Hb1|[Hb2|Hb3]]; [lia|lia|].
    clear -Hb3. subst initiator_id. discriminate. }
  destruct (only_own_messages CreateTask F) as [P|(m & Hm & V)]; [contradiction|].
  rewrite V. simpl. split; [eauto|]. split; [congruence|exact Fr].
Qed.

Lemma create_task_tool_rejects_invalid_witness :
  let w := Samples.world_with Samples.logo_task in
  let out := ohap_create_task Samples.strict_client "agent-001" "agent" "Logo"
               "too short" Samples.env0 w in
  (exists m, m ∈ messages CreateTask /\ fst out = inl (Raised (ValueError m)))
  /\ sent (snd out) = sent w
  /\ (forall r', is_Some (heap w !! r') -> obj (snd out) r' = obj w r').
Proof.
  apply (create_task_tool_rejects_invalid Samples.strict_client "agent-001" "agent"
           Samples.env0 (Samples.world_with Samples.logo_task) "Logo" "too short").
  - reflexivity.
  - right. left. simpl. lia.
Defined.

(** X24: With a validating client the review tool never posts a review
    it was given badly: when the deliverable id, the reviewer id or the
    decision is empty, the call raises a validation error of the review
    validator and sends nothing; the caller's objects stay as they
    were. *)
Theorem review_tool_rejects_invalid
    (self : OHAPClient) (env : Env) (w : World)
    (deliverable_id task_id reviewer_id decision : string) :
  validate_schemas self = true ->
  deliverable_id = "" \/ reviewer_id = "" \/ decision = "" ->
  let out := ohap_submit_review self deliverable_id task_id reviewer_id decision
               env w in
  (exists m, m ∈ messages SubmitReview /\ fst out = inl (Raised (ValueError m)))
  /\ sent (snd out) = sent w
  /\ (forall r', is_Some (heap w !! r') -> obj (snd out) r' = obj w r').
Proof.
  intros Hv Hbad out. subst out. unfold ohap_submit_review.
  match goal with |- context [lift (alloc ?d)] => set (D := d) end.
  match goal with |- context [tbind (lift (submit_review self _)) ?k] =>
    destruct (tool_run self env w SubmitReview D k) as
      (b & w0 & Hb & Hh & Ho & Hs & R & W);
    [intros; apply dumps_pair_world|] end.
  change (fun r => tbind (lift (submit_review self r)) ?k)
    with (fun r => tbind (lift (run_operation SubmitReview self r)) k).
  rewrite W, R. rewrite (run_operation_run env self SubmitReview b w0), Hv.
  set (F := obj (filled SubmitReview b env w0) b).
  assert (Bi : bad_id F = false) by (apply filled_new_id_ok; by rewrite Ho).
  assert (Gd : get F "deliverable_id" = VStr deliverable_id)
    by (apply filled_keeps; by rewrite Ho).
  assert (Gr : get F "reviewer"
               = VDict (<["type" := VStr "initiator"]> {["id" := VStr reviewer_id]}))
    by (apply filled_keeps; by rewrite Ho).
  assert (Gc : get F "decision" = VStr decision)
    by (apply filled_keeps; by rewrite Ho).
  destruct (fill_defaults_run env SubmitReview b w0) as (_ & (Hs1 & _) & _).
  pose proof (tool_frame_of_filled self env w SubmitReview b w0 D Hb Hh) as Fr.
  assert (NP : validator_of SubmitReview F ≠ passed).
  { simpl validator_of. unfold validate_review.
    rewrite Bi, Gd, Gr, Gc. unfold bad_actor, get.
    rewrite lookup_insert_ne by discriminate. rewrite lookup_singleton_eq.
    simpl default. clear -Hbad.
    destruct deliverable_id as [|c1 s1]; [discriminate|].
    destruct reviewer_id as [|c2 s2]; [discriminate|].
    destruct decision as [|c3 s3]; [discriminate|].
    destruct Hbad as [X|[X|X]]; discriminate X. }
  destruct (only_own_messages SubmitReview F) as [P|(m & Hm & V)]; [contradiction|].
  rewrite V. simpl. split; [eauto|]. split; [congruence|exact Fr].
Qed.

Lemma review_tool_rejects_invalid_witness :
  let w := Samples.world_with Samples.logo_task in
  let out := ohap_submit_review Samples.strict_client "del-001" "task-001"
               "agent-001" "" Samples.env0 w in
  (exists m, m ∈ messages SubmitReview /\ fst out = inl (Raised (ValueError m)))
  /\ sent (snd out) = sent w
  /\ (forall r', is_Some (heap w !! r') -> obj (snd out) r' = obj w r').
Proof.
  apply (review_tool_rejects_invalid Samples.strict_client Samples.env0
           (Samples.world_with Samples.logo_task) "del-001" "task-001"
           "agent-001" "").
  - reflexivity.
  - right. right. reflexivity.
Defined.

End ToolFacts.
